(** * Humanity-Soft: the transaction client ([utils/core/client.py])

    A shallow embedding of [Client] -- endpoint selection, fee estimation,
    transaction building, submission and the confirmation polling loop --
    together with the properties of its behaviour.

    Python integers are [Z]; Python floats (IEEE binary64) are modelled
    exactly by dyadic numbers with correct rounding; dictionaries are
    [gmap string pyval]; the RPC node is an explicit environment whose
    calls either return a value or raise. *)

From Stdlib Require Import ZArith Lia Bool.
From stdpp Require Import gmap strings list fin_maps pretty.

Open Scope Z_scope.

(** ** Python values and exceptions *)

Module Py.

(** Exception classes the client distinguishes or that the interpreter
    raises inside it; everything else is [OtherError]. *)
Inductive exc_class :=
| TransactionNotFound
| TimeExhausted
| OverflowError
| ZeroDivisionError
| IndexError
| OtherError (name : string).

#[warnings="-register-all"]
Inductive pyval :=
| PNone
| PBool (b : bool)
| PInt (n : Z)
| PStr (s : string)
| PDict (d : gmap string pyval)
| PExc (cls : exc_class) (args : list pyval).

(** Outcome of a call: a value, or a raised exception of type [E]. *)
Inductive Result (E A : Type) :=
| Ok (a : A)
| Raise (e : E).
Arguments Ok {E A} a.
Arguments Raise {E A} e.

#[export] Instance Result_ret {E} : MRet (Result E) := fun _ a => Ok a.

#[export] Instance Result_bind {E} : MBind (Result E) := fun _ _ k c =>
  match c with
  | Ok a => k a
  | Raise e => Raise e
  end.

(** [try: c except Exception as error: raise h(error)] *)
Definition try_except {E F A} (c : Result E A) (h : E -> F) : Result F A :=
  match c with
  | Ok a => Ok a
  | Raise e => Raise (h e)
  end.

(** [v == n] for an integer literal [n]; [True == 1] holds in Python. *)
Definition py_eq_int (v : pyval) (n : Z) : bool :=
  match v with
  | PInt k => k =? n
  | PBool b => (if b then 1 else 0) =? n
  | _ => false
  end.

(** [v == s] for a string literal [s]. *)
Definition py_eq_str (v : pyval) (s : string) : bool :=
  match v with
  | PStr t => bool_decide (t = s)
  | _ => false
  end.

(** [v is None] *)
Definition is_None (v : pyval) : bool :=
  match v with
  | PNone => true
  | _ => false
  end.

(** [d.get(key, default)] *)
Definition dict_get (d : gmap string pyval) (key : string) (default : pyval) : pyval :=
  match d !! key with
  | Some v => v
  | None => default
  end.

(** [isinstance(error, cls)] on exception objects (no subclassing). *)
Definition isinstance (error : pyval) (cls : exc_class) : bool :=
  match error, cls with
  | PExc TransactionNotFound _, TransactionNotFound => true
  | PExc TimeExhausted _, TimeExhausted => true
  | _, _ => false
  end.

(** [random.choice(seq)] with the draw [r] made explicit: raises
    [IndexError] on an empty sequence. *)
Definition choice {A} (r : nat) (seq : list A) : Result pyval A :=
  match seq !! (r mod length seq)%nat with
  | Some x => Ok x
  | None => Raise (PExc IndexError [PStr "Cannot choose from an empty sequence"])
  end.

(** *** Floating point

    A finite binary64 value is [m * 2^e]; the operations the client
    uses -- [int / int], [int * 1.5], [round(float)], [int(float)] --
    are computed exactly and then rounded to nearest, ties to even, with
    53 bits of precision, gradual underflow below [2^-1022] and overflow
    at [2^1024]. *)
Inductive float :=
| Finite (m e : Z)
| Infinity (negative : bool).

(** [a / b] for [0 < b], rounded to the nearest integer, ties to even. *)
Definition rne (a b : Z) : Z :=
  let q := a / b in
  let r := a mod b in
  if 2 * r <? b then q
  else if b <? 2 * r then q + 1
  else if Z.even q then q else q + 1.

(** The rational [a / (b * 2^e)] as a fraction of integers. *)
Definition scaled_num (a e : Z) : Z := a * 2 ^ Z.max 0 (- e).
Definition scaled_den (b e : Z) : Z := b * 2 ^ Z.max 0 e.

(** The exponent of the unit in the last place of [|a| / b]. *)
Definition ulp_exponent (a b : Z) : Z :=
  let e1 := Z.log2 (Z.abs a) - Z.log2 b - 52 in
  let e2 := if scaled_num (Z.abs a) e1 <? 2 ^ 52 * scaled_den b e1
            then e1 - 1 else e1 in
  Z.max e2 (-1074).

(** The binary64 number nearest to [a / b], for [0 < b]. *)
Definition float_round (a b : Z) : float :=
  if a =? 0 then Finite 0 0
  else
    let e := ulp_exponent a b in
    let m := rne (scaled_num a e) (scaled_den b e) in
    if (0 <=? e) && (2 ^ 1024 <=? Z.abs m * 2 ^ e)
    then Infinity (a <? 0)
    else Finite m e.

Definition overflow (what : string) : pyval := PExc OverflowError [PStr what].

(** [float(n)] *)
Definition float_of_int (n : Z) : Result pyval float :=
  match float_round n 1 with
  | Infinity _ => Raise (overflow "int too large to convert to float")
  | f => Ok f
  end.

(** [a / b] on integers (true division). *)
Definition true_div (a b : Z) : Result pyval float :=
  if b =? 0 then Raise (PExc ZeroDivisionError [PStr "division by zero"])
  else
    match (if b <? 0 then float_round (- a) (- b) else float_round a b) with
    | Infinity _ => Raise (overflow "integer division result too large for a float")
    | f => Ok f
    end.

(** [x * 1.5] on floats: the exact product is [3 * m * 2^(e-1)]. *)
Definition fmul_1_5 (x : float) : float :=
  match x with
  | Finite m e => float_round (scaled_num (3 * m) (1 - e)) (scaled_den 1 (1 - e))
  | Infinity s => Infinity s
  end.

(** [int(x)]: truncation towards zero. *)
Definition int_of_float (x : float) : Result pyval Z :=
  match x with
  | Finite m e => Ok (if 0 <=? e then m * 2 ^ e else m ÷ 2 ^ (- e))
  | Infinity _ => Raise (overflow "cannot convert float infinity to integer")
  end.

(** [round(x)]: nearest integer, ties to even. *)
Definition round (x : float) : Result pyval Z :=
  match x with
  | Finite m e => Ok (if 0 <=? e then m * 2 ^ e else rne m (2 ^ (- e)))
  | Infinity _ => Raise (overflow "cannot convert float infinity to integer")
  end.

(** [int(n * 1.5)] for an integer [n]. *)
Definition int_mul_1_5 (n : Z) : Result pyval Z :=
  x ← float_of_int n; int_of_float (fmul_1_5 x).

End Py.

Import Py.

(** ** The data model *)

(** [utils/core/network.py] is outside the module; a [Network] is what
    the client reads from it. *)
Module Network.
Record t := mk {
  rpc : list string;
  chain_id : Z;
  explorer : string;
  eip1559_support : bool;
}.
End Network.

(** [AsyncWeb3(AsyncHTTPProvider(endpoint_uri, request_kwargs=kwargs))] *)
Record AsyncWeb3 := AsyncHTTPProvider {
  endpoint_uri : string;
  kwargs : gmap string pyval;
}.

Record Client := mkClient {
  name : string;
  network : Network.t;
  proxy_init : option string;
  rpc : string;
  request_kwargs : gmap string pyval;
  w3 : AsyncWeb3;
  private_key : string;
  address : string;
}.

Definition with_w3 (self : Client) (new_w3 : AsyncWeb3) : Client :=
  {| name := name self; network := network self; proxy_init := proxy_init self;
     rpc := rpc self; request_kwargs := request_kwargs self; w3 := new_w3;
     private_key := private_key self; address := address self |}.

(** Calls of the module-level [logger]. *)
Inductive level := WARNING | SUCCESS | ERROR.
Definition log_record : Type := level * string.

(** A signed transaction: [raw_transaction] and its [hash]. *)
Record SignedTransaction := mkSigned {
  raw_transaction : string;
  hash : string;
}.

(** The node behind [self.w3.eth]: every call returns or raises.  The
    receipt lookup takes the number of the poll, since the chain moves
    between polls.  [fee_history] returns the ["reward"] column.  A
    transaction hash is kept as the string [tx_hash.hex()]. *)
Record Eth := mkEth {
  get_transaction_count : string -> Result pyval Z;
  gas_price : Result pyval Z;
  fee_history : Z -> string -> list float -> Result pyval (list (list Z));
  estimate_gas : gmap string pyval -> Result pyval Z;
  sign_transaction : gmap string pyval -> string -> Result pyval SignedTransaction;
  send_raw_transaction : string -> Result pyval string;
  get_transaction_receipt : nat -> string -> Result pyval (gmap string pyval);
}.

(** [raise BlockchainException(f'{formatted}')] *)
Inductive ClientError :=
| BlockchainException (formatted : pyval).

(** What [send_transaction] returns: the hash, [True], or a
    [SoftwareException] object (returned, not raised). *)
Inductive retval :=
| TxHash (tx_hash : string)
| PyTrue
| SoftwareException (message : string).

(** ** The client *)

(** [Client.__init__]; [r] is the draw of [random.choice] and
    [address_of_key] the account derivation of the signing library,
    [to_checksum_address(self.w3.eth.account.from_key(private_key).address)],
    which raises on a string that is not a private key. *)
Definition init (r : nat) (address_of_key : string -> Result pyval string)
    (network : Network.t) (private_key name : string) (proxy : option string)
  : Result pyval Client :=
  rpc ← choice r (Network.rpc network);
  let request_kwargs : gmap string pyval :=
    match proxy with
    | Some p =>
        if bool_decide (p = "") then {[ "verify_ssl" := PBool false ]}
        else <[ "proxy" := PStr p ]> {[ "verify_ssl" := PBool false ]}
    | None => {[ "verify_ssl" := PBool false ]}
    end in
  address ← address_of_key private_key;
  mret {| name := name; network := network; proxy_init := proxy; rpc := rpc;
          request_kwargs := request_kwargs;
          w3 := AsyncHTTPProvider rpc request_kwargs;
          private_key := private_key; address := address |}.

Definition get_normalize_error (error : pyval) : pyval :=
  match error with
  | PExc _ (PDict d :: _) => dict_get d "message" error
  | _ => error
  end.

(** [change_rpc]: the new client state and the log lines written. *)
Definition change_rpc (r : nat) (self : Client) : Result pyval (Client * list log_record) :=
  let warned := [(WARNING, "Замена RPS | " +:+ address self)] in
  if negb (length (Network.rpc (network self)) =? 1)%nat then
    let rpcs_list := filter (λ rpc', rpc' ≠ rpc self) (Network.rpc (network self)) in
    new_rpc ← choice r rpcs_list;
    mret (with_w3 self (AsyncHTTPProvider new_rpc (request_kwargs self)),
          warned ++ [(SUCCESS, "Замена RPS прошла успешно! | " +:+ address self)])
  else
    mret (self, warned ++ [(ERROR, "Не удалось сменить RPS | " +:+ address self)]).

(** [[fee[0] for fee in reward if fee[0] != 0]] *)
Fixpoint non_empty_block_priority_fees (reward : list (list Z)) : Result pyval (list Z) :=
  match reward with
  | [] => Ok []
  | fee :: rest =>
      match fee with
      | [] => Raise (PExc IndexError [PStr "list index out of range"])
      | fee0 :: _ =>
          fees ← non_empty_block_priority_fees rest;
          mret (if fee0 =? 0 then fees else fee0 :: fees)
      end
  end.

(** [sum(l)] *)
Definition sum (l : list Z) : Z := foldl Z.add 0 l.

(** The arithmetic of [get_priotiry_fee] on a reward window:
    [int(round(sum(fees) / divisor_priority))], where [round] already
    returns an [int]. *)
Definition priority_fee_of (reward : list (list Z)) : Result pyval Z :=
  fees ← non_empty_block_priority_fees reward;
  let divisor_priority := Z.max (Z.of_nat (length fees)) 1 in
  mean ← true_div (sum fees) divisor_priority;
  round mean.

Definition get_priotiry_fee (eth : Eth) : Result pyval Z :=
  reward ← fee_history eth 25 "latest" [Finite 20 0];
  priority_fee_of reward.

Definition prepare_transaction (self : Client) (eth : Eth) (value : Z)
  : Result ClientError (gmap string pyval) :=
  try_except
    (nonce ← get_transaction_count eth (address self);
     let tx_params : gmap string pyval :=
       <[ "chainId" := PInt (Network.chain_id (network self)) ]>
       (<[ "value" := PInt value ]>
       (<[ "nonce" := PInt nonce ]>
       {[ "from" := PStr (address self) ]})) in
     if Network.eip1559_support (network self) then
       base_fee ← gas_price eth;
       max_priority_fee_per_gas ← get_priotiry_fee eth;
       let max_fee_per_gas := base_fee + max_priority_fee_per_gas in
       max_fee ← int_mul_1_5 max_fee_per_gas;
       mret (<[ "type" := PStr "0x2" ]>
            (<[ "maxFeePerGas" := PInt max_fee ]>
            (<[ "maxPriorityFeePerGas" := PInt max_priority_fee_per_gas ]> tx_params)))
     else
       price ← gas_price eth;
       gas_price' ← int_mul_1_5 price;
       mret (<[ "gasPrice" := PInt gas_price' ]> tx_params))
    (λ error, BlockchainException (get_normalize_error error)).

(** *** The confirmation loop *)

(** One iteration of [while True]: return, let an exception leave the
    loop, or sleep [poll_latency] and go round again with the new
    [total_time]. *)
Inductive iteration :=
| Return (v : retval)
| Escape (error : pyval)
| Sleep (total_time : Z).

Definition poll_once (self : Client) (tx_hash : string) (need_hash : bool)
    (poll_latency timeout total_time : Z)
    (lookup : Result pyval (gmap string pyval)) : iteration :=
  match lookup with
  | Ok receipts =>
      let status := dict_get receipts "status" PNone in
      if py_eq_int status 1 then
        if need_hash then Return (TxHash tx_hash) else Return PyTrue
      else if is_None status then Sleep total_time
      else Return (SoftwareException
                     ("Транзакция не выполнилась: "
                      +:+ Network.explorer (network self) +:+ "tx/" +:+ tx_hash))
  | Raise error =>
      if isinstance error TransactionNotFound then
        if timeout <? total_time then
          Escape (PExc TimeExhausted
                    [PStr ("Транзакция отсутствует в цепочке после "
                           +:+ pretty timeout +:+ " секунд")])
        else Sleep (total_time + poll_latency)
      else Sleep (total_time + poll_latency)
  end.

(** The loop from poll number [i] on, cut after [fuel] iterations:
    [None] means it is still polling. *)
Fixpoint poll_loop (fuel : nat) (self : Client) (eth : Eth) (tx_hash : string)
    (need_hash : bool) (poll_latency timeout : Z) (i : nat) (total_time : Z)
  : option (Result pyval retval) :=
  match fuel with
  | O => None
  | S fuel' =>
      match poll_once self tx_hash need_hash poll_latency timeout total_time
              (get_transaction_receipt eth i tx_hash) with
      | Return v => Some (Ok v)
      | Escape error => Some (Raise error)
      | Sleep total_time' =>
          poll_loop fuel' self eth tx_hash need_hash poll_latency timeout (S i) total_time'
      end
  end.

Definition default_poll_latency : Z := 10.
Definition default_timeout : Z := 360.

Definition wrap (error : pyval) : ClientError :=
  BlockchainException (get_normalize_error error).

(** The first [try] of [send_transaction]: the gas limit. *)
Definition fill_gas (eth : Eth) (transaction : gmap string pyval) (without_gas : bool)
  : Result ClientError (gmap string pyval) :=
  try_except
    (if negb without_gas then
       gas ← estimate_gas eth transaction;
       gas' ← int_mul_1_5 gas;
       mret (<[ "gas" := PInt gas' ]> transaction)
     else mret transaction)
    wrap.

(** The body of the second [try]: sign and broadcast. *)
Definition broadcast (self : Client) (eth : Eth) (transaction : gmap string pyval)
  : Result pyval string :=
  singed_tx ← sign_transaction eth transaction (private_key self);
  send_raw_transaction eth (raw_transaction singed_tx).

(** [send_transaction], its loop cut after [fuel] polls. *)
Definition send_transaction (fuel : nat) (self : Client) (eth : Eth)
    (transaction : gmap string pyval) (need_hash without_gas : bool)
    (poll_latency timeout : Z) : option (Result ClientError retval) :=
  match fill_gas eth transaction without_gas with
  | Raise e => Some (Raise e)
  | Ok transaction =>
      match broadcast self eth transaction with
      | Raise error =>
          if py_eq_str (get_normalize_error error) "already known"
          then Some (Ok PyTrue)
          else Some (Raise (wrap error))
      | Ok tx_hash =>
          let total_time := 0 in
          let timeout := 1200 in
          match poll_loop fuel self eth tx_hash need_hash poll_latency timeout O total_time with
          | None => None
          | Some outcome => Some (try_except outcome wrap)
          end
      end
  end.

(** The loop arrives at poll [i] with [total_time] accumulated. *)
Inductive reaches (self : Client) (eth : Eth) (tx_hash : string) (need_hash : bool)
    (poll_latency timeout : Z) : nat -> Z -> Prop :=
| reaches_start :
    reaches self eth tx_hash need_hash poll_latency timeout O 0
| reaches_sleep i total_time total_time' :
    reaches self eth tx_hash need_hash poll_latency timeout i total_time ->
    poll_once self tx_hash need_hash poll_latency timeout total_time
      (get_transaction_receipt eth i tx_hash) = Sleep total_time' ->
    reaches self eth tx_hash need_hash poll_latency timeout (S i) total_time'.

(** The reward of each block of a window at the requested percentile,
    and those of them that are not zero. *)
Definition samples (reward : list (list Z)) : list Z :=
  (λ fee, default 0 (head fee)) <$> reward.

Definition non_zero (l : list Z) : list Z := filter (λ x, x ≠ 0) l.

(** The [i]-th lookup of the receipt raises [TransactionNotFound]. *)
Definition missing (eth : Eth) (tx_hash : string) (i : nat) : Prop :=
  exists args, get_transaction_receipt eth i tx_hash = Raise (PExc TransactionNotFound args).

(** The [i]-th lookup of the receipt raises some other exception. *)
Definition failing (eth : Eth) (tx_hash : string) (i : nat) : Prop :=
  exists error, get_transaction_receipt eth i tx_hash = Raise error
                /\ isinstance error TransactionNotFound = false.

(** ** Fixtures: a client and nodes to run the code on *)

Definition two_rpc_network : Network.t :=
  Network.mk ["https://rpc-a.example"; "https://rpc-b.example"] 1 "https://scan.example/" true.

Definition one_rpc_network : Network.t :=
  Network.mk ["https://rpc-a.example"] 56 "https://scan.example/" false.

Definition test_address_of_key (key : string) : Result pyval string := Ok "0xA11CE".

Definition client_of (network : Network.t) : Client :=
  {| name := "acc"; network := network; proxy_init := None;
     rpc := "https://rpc-a.example";
     request_kwargs := {[ "verify_ssl" := PBool false ]};
     w3 := AsyncHTTPProvider "https://rpc-a.example" {[ "verify_ssl" := PBool false ]};
     private_key := "key"; address := "0xA11CE" |}.

Definition not_found : Result pyval (gmap string pyval) :=
  Raise (PExc TransactionNotFound [PStr "Transaction with hash: 0xabc not found."]).

Definition receipt_with (status : pyval) : Result pyval (gmap string pyval) :=
  Ok (<[ "status" := status ]> {[ "blockNumber" := PInt 7 ]}).

(** A node with gas price [price], reward window [reward], that accepts
    the broadcast and answers the [i]-th receipt lookup with [receipts i]. *)
Definition node (price : Z) (reward : list (list Z))
    (receipts : nat -> Result pyval (gmap string pyval)) : Eth :=
  {| get_transaction_count := λ _, Ok 3;
     gas_price := Ok price;
     fee_history := λ _ _ _, Ok reward;
     estimate_gas := λ _, Ok 21000;
     sign_transaction := λ _ _, Ok (mkSigned "0xf86b" "0xabc");
     send_raw_transaction := λ _, Ok "0xabc";
     get_transaction_receipt := λ i _, receipts i |}.

(** The same node, except that the broadcast fails with [error]. *)
Definition rejecting_node (error : pyval) : Eth :=
  {| get_transaction_count := λ _, Ok 3;
     gas_price := Ok 100;
     fee_history := λ _ _ _, Ok [];
     estimate_gas := λ _, Ok 21000;
     sign_transaction := λ _ _, Ok (mkSigned "0xf86b" "0xabc");
     send_raw_transaction := λ _, Raise error;
     get_transaction_receipt := λ _ _, not_found |}.

Definition transfer : gmap string pyval :=
  <[ "to" := PStr "0xB0B" ]> {[ "value" := PInt 1 ]}.

(** What [prepare_transaction] builds on [two_rpc_network] for base fee
    100 and priority fee 4, and on [one_rpc_network] for gas price 100. *)
Definition priced_transaction : gmap string pyval :=
  <[ "type" := PStr "0x2" ]>
  (<[ "maxFeePerGas" := PInt 156 ]>
  (<[ "maxPriorityFeePerGas" := PInt 4 ]>
  (<[ "chainId" := PInt 1 ]>
  (<[ "value" := PInt 0 ]>
  (<[ "nonce" := PInt 3 ]>
  {[ "from" := PStr "0xA11CE" ]}))))).

Definition legacy_transaction : gmap string pyval :=
  <[ "gasPrice" := PInt 150 ]>
  (<[ "chainId" := PInt 56 ]>
  (<[ "value" := PInt 0 ]>
  (<[ "nonce" := PInt 3 ]>
  {[ "from" := PStr "0xA11CE" ]}))).

(** [transfer] once [send_transaction] has set its gas limit. *)
Definition transfer_with_gas : gmap string pyval :=
  <[ "gas" := PInt 31500 ]> transfer.

(** Receipt lookups that miss [n] times and then find a successful receipt. *)
Definition found_after (n : nat) (i : nat) : Result pyval (gmap string pyval) :=
  if (i <? n)%nat then not_found else receipt_with (PInt 1).

(** Receipt lookups that always fail with a connection error. *)
Definition connection_error : pyval :=
  PExc (OtherError "ClientConnectorError") [PStr "Cannot connect to host"].

Definition unreachable (i : nat) : Result pyval (gmap string pyval) :=
  Raise connection_error.

(** The RPC error payload of a duplicate submission. *)
Definition already_known_error : pyval :=
  PExc (OtherError "Web3RPCError")
    [PDict (<[ "message" := PStr "already known" ]> {[ "code" := PInt (-32000) ]})].

Definition nonce_too_low_error : pyval :=
  PExc (OtherError "Web3RPCError")
    [PDict (<[ "message" := PStr "nonce too low" ]> {[ "code" := PInt (-32000) ]})].

(** ** Read-only queries *)

(** The object that [self.w3.eth.contract(address=..., abi=...)] returns. *)
Record AsyncContract := mkContract {
  contract_address : string;
  contract_abi : pyval;
}.

(** What the queries read besides the client: [NETWORK_TOKEN_CONTRACTS]
    and [ERC20_ABI] of [data.config], the address validation of
    [AsyncWeb3.to_checksum_address], the balance of an account and the
    calls of a contract's functions. *)
Record Ledger := mkLedger {
  NETWORK_TOKEN_CONTRACTS : gmap string string;
  ERC20_ABI : pyval;
  to_checksum_address : string -> Result pyval string;
  get_balance : string -> Result pyval Z;
  call_decimals : AsyncContract -> Result pyval Z;
  call_balanceOf : AsyncContract -> string -> Result pyval Z;
  call_allowance : AsyncContract -> string -> string -> Result pyval Z;
}.

(** [d[key]] on a dictionary of strings; [key] may be [None]. *)
Definition subscript (d : gmap string string) (key : option string) : Result pyval string :=
  match key with
  | Some k =>
      match d !! k with
      | Some v => Ok v
      | None => Raise (PExc (OtherError "KeyError") [PStr k])
      end
  | None => Raise (PExc (OtherError "KeyError") [PNone])
  end.

(** [await c] on a contract object: [get_contract] is a plain function
    and what it returns has no [__await__]. *)
Definition await_contract {A} (c : AsyncContract) : Result pyval A :=
  Raise (PExc (OtherError "TypeError")
           [PStr "object AsyncContract can't be used in 'await' expression"]).

Definition get_contract (ledger : Ledger) (contract_address : string) (abi : pyval)
  : Result pyval AsyncContract :=
  checked ← to_checksum_address ledger contract_address;
  mret (mkContract checked abi).

Definition get_decimals (ledger : Ledger) (token_name : option string) : Result pyval Z :=
  contract_address ← subscript (NETWORK_TOKEN_CONTRACTS ledger) token_name;
  made ← get_contract ledger contract_address (ERC20_ABI ledger);
  contract ← await_contract made;
  call_decimals ledger contract.

(** [x or None] on an integer. *)
Definition or_None (x : Z) : option Z := if x =? 0 then None else Some x.

Definition get_token_balance (self : Client) (ledger : Ledger) (token : option string)
    (check_native : bool) : Result pyval (option Z) :=
  if check_native then
    token_balance ← get_balance ledger (address self);
    mret (or_None token_balance)
  else
    contract_address ← subscript (NETWORK_TOKEN_CONTRACTS ledger) token;
    made ← get_contract ledger contract_address (ERC20_ABI ledger);
    contract ← await_contract made;
    token_balance ← call_balanceOf ledger contract (address self);
    mret (or_None token_balance).

Definition get_allowance (self : Client) (ledger : Ledger)
    (token_address spender_address : string) : Result pyval Z :=
  contract ← get_contract ledger token_address (ERC20_ABI ledger);
  call_allowance ledger contract (address self) spender_address.

(** ** Bookkeeping for the properties *)

(** [change_rpc] called once per draw, in turn. *)
Fixpoint change_rpcs (draws : list nat) (self : Client) : Result pyval Client :=
  match draws with
  | [] => Ok self
  | r :: rest =>
      swapped ← change_rpc r self;
      change_rpcs rest swapped.1
  end.

(** How many of the first [i] receipt lookups raised. *)
Fixpoint raised (eth : Eth) (tx_hash : string) (i : nat) : nat :=
  match i with
  | O => O
  | S j =>
      (match get_transaction_receipt eth j tx_hash with
       | Raise _ => 1
       | Ok _ => 0
       end + raised eth tx_hash j)%nat
  end.

(** The [i]-th lookup finds a receipt whose status is still [None]. *)
Definition pending (eth : Eth) (tx_hash : string) (i : nat) : Prop :=
  exists receipts, get_transaction_receipt eth i tx_hash = Ok receipts
                   /\ dict_get receipts "status" PNone = PNone.

(** Why the loop ends at poll [i] with [total_time] accumulated: a
    receipt with status 1, a receipt with another status, or a missing
    receipt when more than the budget has accumulated. *)
Inductive ended_at (self : Client) (eth : Eth) (tx_hash : string) (need_hash : bool)
    (timeout : Z) (i : nat) (total_time : Z) : Result pyval retval -> Prop :=
| ended_confirmed receipts :
    get_transaction_receipt eth i tx_hash = Ok receipts ->
    py_eq_int (dict_get receipts "status" PNone) 1 = true ->
    ended_at self eth tx_hash need_hash timeout i total_time
      (Ok (if need_hash then TxHash tx_hash else PyTrue))
| ended_failed receipts :
    get_transaction_receipt eth i tx_hash = Ok receipts ->
    py_eq_int (dict_get receipts "status" PNone) 1 = false ->
    is_None (dict_get receipts "status" PNone) = false ->
    ended_at self eth tx_hash need_hash timeout i total_time
      (Ok (SoftwareException
             ("Транзакция не выполнилась: "
              +:+ Network.explorer (network self) +:+ "tx/" +:+ tx_hash)))
| ended_exhausted :
    missing eth tx_hash i ->
    timeout < total_time ->
    ended_at self eth tx_hash need_hash timeout i total_time
      (Raise (PExc TimeExhausted
                [PStr ("Транзакция отсутствует в цепочке после "
                       +:+ pretty timeout +:+ " секунд")])).

(** A ledger that knows one token and holds [balance] for every account. *)
Definition ledger_with (balance : Z) : Ledger :=
  {| NETWORK_TOKEN_CONTRACTS := {[ "USDT" := "0xdac17f958d2ee523a2206206994597c13d831ec7" ]};
     ERC20_ABI := PStr "erc20";
     to_checksum_address := λ a, Ok a;
     get_balance := λ _, Ok balance;
     call_decimals := λ _, Ok 6;
     call_balanceOf := λ _ _, Ok balance;
     call_allowance := λ _ _ _, Ok 0 |}.

(** A node like [node] whose gas estimation fails with [error]. *)
Definition unestimable_node (error : pyval) : Eth :=
  {| get_transaction_count := λ _, Ok 3;
     gas_price := Ok 100;
     fee_history := λ _ _ _, Ok [];
     estimate_gas := λ _, Raise error;
     sign_transaction := λ _ _, Ok (mkSigned "0xf86b" "0xabc");
     send_raw_transaction := λ _, Ok "0xabc";
     get_transaction_receipt := λ _ _, not_found |}.

(** A private key with its account, and the derivation on it: any other
    string is taken not to be a key.  The text of the library's error is
    not modelled. *)
Definition valid_private_key : string :=
  "0x4c0883a69102937d6231471b5dbb6204fe5129617082792ae468d01a3f362318".

Definition valid_address : string := "0x2c7536E3605D9C16a7a3D7b1898e529396a65c23".

Definition invalid_key_error : pyval :=
  PExc (OtherError "ValueError")
    [PStr "invalid private key"].

Definition account_of_key (key : string) : Result pyval string :=
  if bool_decide (key = valid_private_key) then Ok valid_address
  else Raise invalid_key_error.

(** A network whose endpoint list names one endpoint twice. *)
Definition duplicate_rpc_network : Network.t :=
  Network.mk ["https://rpc-a.example"; "https://rpc-a.example"] 1 "https://scan.example/" true.

(** Receipt lookups that find a receipt without a status yet. *)
Definition still_pending (i : nat) : Result pyval (gmap string pyval) :=
  Ok {[ "blockNumber" := PNone ]}.

(** ** The confirmation loop: general facts *)

Section Polling.
Context (self : Client) (eth : Eth) (tx_hash : string) (need_hash : bool).
Context (poll_latency timeout : Z).

Local Abbreviation loop fuel i t :=
  (poll_loop fuel self eth tx_hash need_hash poll_latency timeout i t).
Local Abbreviation arrives i t :=
  (reaches self eth tx_hash need_hash poll_latency timeout i t).

Lemma poll_loop_unfold fuel i t :
  loop (S fuel) i t =
  match poll_once self tx_hash need_hash poll_latency timeout t
          (get_transaction_receipt eth i tx_hash) with
  | Return v => Some (Ok v)
  | Escape error => Some (Raise error)
  | Sleep t' => loop fuel (S i) t'
  end.
Proof. reflexivity. Qed.

(** Polls that only sleep are skipped by giving the loop more fuel. *)
Lemma poll_loop_reaches i t :
  arrives i t -> forall fuel, loop (i + fuel)%nat O 0 = loop fuel i t.
Proof.
  induction 1 as [|i t t' Hreach IH Hstep]; intros fuel; [done|].
  replace (S i + fuel)%nat with (i + S fuel)%nat by lia.
  by rewrite IH, poll_loop_unfold, Hstep.
Qed.

(** Once the loop has ended, more fuel does not change the outcome. *)
Lemma poll_loop_mono fuel : forall i t outcome extra,
  loop fuel i t = Some outcome -> loop (fuel + extra)%nat i t = Some outcome.
Proof.
  induction fuel as [|fuel IH]; intros i t outcome extra; [done|].
  cbn [Nat.add]. rewrite !poll_loop_unfold.
  destruct (poll_once _ _ _ _ _ _ _); auto.
Qed.

(** A poll that finds a receipt with [status == 1]. *)
Lemma poll_once_success receipts t :
  py_eq_int (dict_get receipts "status" PNone) 1 = true ->
  poll_once self tx_hash need_hash poll_latency timeout t (Ok receipts)
  = Return (if need_hash then TxHash tx_hash else PyTrue).
Proof. intros H. unfold poll_once. rewrite H. by destruct need_hash. Qed.

(** A poll that finds a receipt whose status is neither [1] nor [None]. *)
Lemma poll_once_failure receipts t :
  py_eq_int (dict_get receipts "status" PNone) 1 = false ->
  is_None (dict_get receipts "status" PNone) = false ->
  poll_once self tx_hash need_hash poll_latency timeout t (Ok receipts)
  = Return (SoftwareException
              ("Транзакция не выполнилась: "
               +:+ Network.explorer (network self) +:+ "tx/" +:+ tx_hash)).
Proof. intros H1 H2. unfold poll_once. by rewrite H1, H2. Qed.

(** A poll that raises anything but [TransactionNotFound]. *)
Lemma poll_once_error error t :
  isinstance error TransactionNotFound = false ->
  poll_once self tx_hash need_hash poll_latency timeout t (Raise error)
  = Sleep (t + poll_latency).
Proof. intros H. unfold poll_once. by rewrite H. Qed.

(** A poll that raises [TransactionNotFound]. *)
Lemma poll_once_not_found args t :
  poll_once self tx_hash need_hash poll_latency timeout t
    (Raise (PExc TransactionNotFound args))
  = if timeout <? t
    then Escape (PExc TimeExhausted
                   [PStr ("Транзакция отсутствует в цепочке после "
                          +:+ pretty timeout +:+ " секунд")])
    else Sleep (t + poll_latency).
Proof. reflexivity. Qed.
End Polling.

(** After a successful broadcast [send_transaction] is the loop with
    [total_time = 0] and [timeout = 1200], its escaping exception wrapped. *)
Lemma send_transaction_polls fuel self eth transaction need_hash without_gas
    poll_latency timeout transaction' tx_hash :
  fill_gas eth transaction without_gas = Ok transaction' ->
  broadcast self eth transaction' = Ok tx_hash ->
  send_transaction fuel self eth transaction need_hash without_gas poll_latency timeout
  = (λ outcome, try_except outcome wrap)
      <$> poll_loop fuel self eth tx_hash need_hash poll_latency 1200 O 0.
Proof.
  intros Hgas Hsend. unfold send_transaction. rewrite Hgas, Hsend.
  by destruct (poll_loop _ _ _ _ _ _ _ _ _).
Qed.

Lemma py_eq_str_spec v s : py_eq_str v s = true <-> v = PStr s.
Proof.
  destruct v; simpl; try (split; [discriminate | congruence]).
  rewrite bool_decide_eq_true. split; congruence.
Qed.

(** ** Submission and confirmation *)

(** C1: a poll that finds a receipt with status 1 makes the call return
    at once -- the hash if the caller asked for it, [True] otherwise --
    whatever [total_time] has accumulated and without looking at the
    budget. *)
Theorem success_receipt_confirms fuel self eth transaction need_hash without_gas
    poll_latency timeout transaction' tx_hash i total_time receipts :
  fill_gas eth transaction without_gas = Ok transaction' ->
  broadcast self eth transaction' = Ok tx_hash ->
  reaches self eth tx_hash need_hash poll_latency 1200 i total_time ->
  get_transaction_receipt eth i tx_hash = Ok receipts ->
  py_eq_int (dict_get receipts "status" PNone) 1 = true ->
  (i < fuel)%nat ->
  send_transaction fuel self eth transaction need_hash without_gas poll_latency timeout
  = Some (Ok (if need_hash then TxHash tx_hash else PyTrue)).
Proof.
  intros Hgas Hsend Hreach Hreceipt Hstatus Hfuel.
  rewrite (send_transaction_polls _ _ _ _ _ _ _ _ _ _ Hgas Hsend).
  replace fuel with (i + S (fuel - S i))%nat by lia.
  rewrite (poll_loop_reaches _ _ _ _ _ _ _ _ Hreach), poll_loop_unfold, Hreceipt.
  by rewrite poll_once_success.
Qed.

(** C8: a poll that finds a receipt whose status is present and is not 1
    makes the call return a [SoftwareException] object; nothing is
    raised. *)
Theorem failed_receipt_is_returned fuel self eth transaction need_hash without_gas
    poll_latency timeout transaction' tx_hash i total_time receipts :
  fill_gas eth transaction without_gas = Ok transaction' ->
  broadcast self eth transaction' = Ok tx_hash ->
  reaches self eth tx_hash need_hash poll_latency 1200 i total_time ->
  get_transaction_receipt eth i tx_hash = Ok receipts ->
  is_None (dict_get receipts "status" PNone) = false ->
  py_eq_int (dict_get receipts "status" PNone) 1 = false ->
  (i < fuel)%nat ->
  send_transaction fuel self eth transaction need_hash without_gas poll_latency timeout
  = Some (Ok (SoftwareException
                ("Транзакция не выполнилась: "
                 +:+ Network.explorer (network self) +:+ "tx/" +:+ tx_hash))).
Proof.
  intros Hgas Hsend Hreach Hreceipt Hpresent Hstatus Hfuel.
  rewrite (send_transaction_polls _ _ _ _ _ _ _ _ _ _ Hgas Hsend).
  replace fuel with (i + S (fuel - S i))%nat by lia.
  rewrite (poll_loop_reaches _ _ _ _ _ _ _ _ Hreach), poll_loop_unfold, Hreceipt.
  by rewrite poll_once_failure.
Qed.

(** C7: a signing or broadcast failure whose normalized error is the
    string "already known" makes the call return [True] (no hash, even
    when one was asked for); any other one is raised as
    [BlockchainException] formatted from the normalized error. *)
Theorem broadcast_failure fuel self eth transaction need_hash without_gas
    poll_latency timeout transaction' error :
  fill_gas eth transaction without_gas = Ok transaction' ->
  broadcast self eth transaction' = Raise error ->
  (get_normalize_error error = PStr "already known" ->
   send_transaction fuel self eth transaction need_hash without_gas poll_latency timeout
   = Some (Ok PyTrue))
  /\ (get_normalize_error error <> PStr "already known" ->
      send_transaction fuel self eth transaction need_hash without_gas poll_latency timeout
      = Some (Raise (BlockchainException (get_normalize_error error)))).
Proof.
  intros Hgas Hsend. unfold send_transaction. rewrite Hgas, Hsend.
  split; intros Hmsg.
  - by rewrite (proj2 (py_eq_str_spec _ _) Hmsg).
  - destruct (py_eq_str _ _) eqn:E; [|done].
    by apply py_eq_str_spec in E.
Qed.

(** Only a structured payload normalizes to its message: an exception
    whose own text is "already known" is raised, not swallowed. *)
Example plain_already_known_is_raised :
  send_transaction 1 (client_of two_rpc_network)
    (rejecting_node (PExc (OtherError "ValueError") [PStr "already known"]))
    transfer false false default_poll_latency default_timeout
  = Some (Raise (BlockchainException
                   (PExc (OtherError "ValueError") [PStr "already known"]))).
Proof. reflexivity. Qed.

(** C10: the [timeout] argument is dead: the call behaves the same for
    every value of it, and after a successful broadcast it is the loop run
    with a budget of 1200. *)
Theorem timeout_argument_is_ignored fuel self eth transaction need_hash without_gas
    poll_latency timeout :
  (forall timeout',
     send_transaction fuel self eth transaction need_hash without_gas poll_latency timeout
     = send_transaction fuel self eth transaction need_hash without_gas poll_latency timeout')
  /\ (forall transaction' tx_hash,
       fill_gas eth transaction without_gas = Ok transaction' ->
       broadcast self eth transaction' = Ok tx_hash ->
       send_transaction fuel self eth transaction need_hash without_gas poll_latency timeout
       = (λ outcome, try_except outcome wrap)
           <$> poll_loop fuel self eth tx_hash need_hash poll_latency 1200 O 0).
Proof.
  split; [reflexivity|]. intros. by eapply send_transaction_polls.
Qed.

(** Two lookups miss, 700 s apart; the third finds the receipt when 1400 s
    have accumulated against the budget of 1200 s. *)
Lemma success_receipt_confirms_witness :
  send_transaction 3 (client_of two_rpc_network) (node 100 [] (found_after 2))
    transfer true false 700 default_timeout
  = Some (Ok (TxHash "0xabc")).
Proof.
  eapply (success_receipt_confirms 3 (client_of two_rpc_network)
            (node 100 [] (found_after 2)) transfer true false 700 default_timeout
            _ "0xabc" 2%nat 1400).
  - vm_compute; reflexivity.
  - vm_compute; reflexivity.
  - eapply reaches_sleep; [eapply reaches_sleep; [apply reaches_start|]|];
      vm_compute; reflexivity.
  - vm_compute; reflexivity.
  - vm_compute; reflexivity.
  - lia.
Defined.

(** The first lookup finds a receipt with status 0. *)
Lemma failed_receipt_is_returned_witness :
  send_transaction 1 (client_of two_rpc_network)
    (node 100 [] (λ _, receipt_with (PInt 0)))
    transfer true false default_poll_latency default_timeout
  = Some (Ok (SoftwareException
                "Транзакция не выполнилась: https://scan.example/tx/0xabc")).
Proof.
  eapply (failed_receipt_is_returned 1 (client_of two_rpc_network)
            (node 100 [] (λ _, receipt_with (PInt 0))) transfer true false
            default_poll_latency default_timeout _ "0xabc" 0%nat 0).
  - vm_compute; reflexivity.
  - vm_compute; reflexivity.
  - apply reaches_start.
  - vm_compute; reflexivity.
  - vm_compute; reflexivity.
  - vm_compute; reflexivity.
  - lia.
Defined.

(** A duplicate submission, and a rejected one. *)
Lemma broadcast_failure_witness :
  send_transaction 1 (client_of two_rpc_network) (rejecting_node already_known_error)
    transfer true false default_poll_latency default_timeout
  = Some (Ok PyTrue)
  /\ send_transaction 1 (client_of two_rpc_network) (rejecting_node nonce_too_low_error)
       transfer true false default_poll_latency default_timeout
     = Some (Raise (BlockchainException (PStr "nonce too low"))).
Proof.
  split.
  - apply (proj1 (broadcast_failure 1 (client_of two_rpc_network)
                    (rejecting_node already_known_error) transfer true false
                    default_poll_latency default_timeout transfer_with_gas
                    already_known_error eq_refl eq_refl)).
    reflexivity.
  - apply (proj2 (broadcast_failure 1 (client_of two_rpc_network)
                    (rejecting_node nonce_too_low_error) transfer true false
                    default_poll_latency default_timeout transfer_with_gas
                    nonce_too_low_error eq_refl eq_refl)).
    vm_compute; discriminate.
Defined.

(** With the default [timeout = 360] the loop still runs on a budget of
    1200. *)
Lemma timeout_argument_is_ignored_witness :
  send_transaction 5 (client_of two_rpc_network) (node 100 [] (found_after 2))
    transfer false false default_poll_latency default_timeout
  = (λ outcome, try_except outcome wrap)
      <$> poll_loop 5 (client_of two_rpc_network) (node 100 [] (found_after 2))
            "0xabc" false default_poll_latency 1200 O 0.
Proof.
  eapply (proj2 (timeout_argument_is_ignored 5 (client_of two_rpc_network)
                   (node 100 [] (found_after 2)) transfer false false
                   default_poll_latency default_timeout)).
  - vm_compute; reflexivity.
  - vm_compute; reflexivity.
Defined.

(** ** The budget of the confirmation loop *)

Section Budget.
Context (self : Client) (eth : Eth) (tx_hash : string) (need_hash : bool).
Context (poll_latency timeout : Z).

Local Abbreviation loop fuel i t :=
  (poll_loop fuel self eth tx_hash need_hash poll_latency timeout i t).
Local Abbreviation arrives i t :=
  (reaches self eth tx_hash need_hash poll_latency timeout i t).

Local Abbreviation missing i := (missing eth tx_hash i).
Local Abbreviation failing i := (failing eth tx_hash i).

(** While the receipt is missing and the time accumulated before each
    poll is within the budget, every poll adds [poll_latency]. *)
Lemma reaches_missing j :
  0 <= poll_latency ->
  (forall i, (i < j)%nat -> missing i) ->
  Z.of_nat j * poll_latency <= timeout + poll_latency ->
  arrives j (Z.of_nat j * poll_latency).
Proof.
  intros Hpos. induction j as [|j IH]; intros Hmiss Hle.
  - apply reaches_start.
  - eapply reaches_sleep.
    + apply IH; [intros i Hi; apply Hmiss; lia | lia].
    + destruct (Hmiss j ltac:(lia)) as [args ->].
      rewrite poll_once_not_found.
      destruct (Z.ltb_spec timeout (Z.of_nat j * poll_latency)); [lia|].
      f_equal. lia.
Qed.

(** Errors other than [TransactionNotFound] add [poll_latency] at every
    poll, whatever has accumulated. *)
Lemma reaches_failing j :
  (forall i, (i < j)%nat -> failing i) ->
  arrives j (Z.of_nat j * poll_latency).
Proof.
  induction j as [|j IH]; intros Hfail.
  - apply reaches_start.
  - eapply reaches_sleep.
    + apply IH. intros i Hi. apply Hfail. lia.
    + destruct (Hfail j ltac:(lia)) as (error & -> & Hcls).
      rewrite poll_once_error by done. f_equal. lia.
Qed.

Lemma poll_loop_failing fuel : forall i t,
  (forall j, failing j) -> loop fuel i t = None.
Proof.
  induction fuel as [|fuel IH]; intros i t Hfail; [done|].
  rewrite poll_loop_unfold.
  destruct (Hfail i) as (error & -> & Hcls).
  rewrite poll_once_error by done. by apply IH.
Qed.

(** While the loop is on its way to poll [i] it has not ended. *)
Lemma poll_loop_before i t :
  arrives i t -> forall fuel, (fuel <= i)%nat -> loop fuel O 0 = None.
Proof.
  induction 1 as [|i t t' Hreach IH Hstep]; intros fuel Hfuel.
  - by replace fuel with O by lia.
  - destruct (decide (fuel = S i)) as [->|]; [|apply IH; lia].
    replace (S i) with (i + 1)%nat by lia.
    rewrite (poll_loop_reaches _ _ _ _ _ _ _ _ Hreach).
    by rewrite poll_loop_unfold, Hstep.
Qed.
(** A lookup that misses when more than the budget has accumulated ends
    the loop with [TimeExhausted]. *)
Lemma poll_loop_times_out i t fuel :
  arrives i t -> missing i -> timeout < t -> (i < fuel)%nat ->
  loop fuel O 0
  = Some (Raise (PExc TimeExhausted
                   [PStr ("Транзакция отсутствует в цепочке после "
                          +:+ pretty timeout +:+ " секунд")])).
Proof.
  intros Hreach [args Hmiss] Hover Hfuel.
  replace fuel with (i + S (fuel - S i))%nat by lia.
  rewrite (poll_loop_reaches _ _ _ _ _ _ _ _ Hreach), poll_loop_unfold.
  rewrite Hmiss, poll_once_not_found.
  by destruct (Z.ltb_spec timeout t); [|lia].
Qed.

(** The number of polls that a positive interval fits within the budget. *)
Lemma polls_within_budget :
  0 < poll_latency -> 0 <= timeout ->
  let k := Z.to_nat (timeout / poll_latency + 1) in
  Z.of_nat k * poll_latency <= timeout + poll_latency
  /\ timeout < Z.of_nat k * poll_latency.
Proof.
  intros Hlat Htime k.
  assert (Hdiv : 0 <= timeout / poll_latency) by (apply Z.div_pos; lia).
  assert (Hk : Z.of_nat k = timeout / poll_latency + 1) by (unfold k; lia).
  pose proof (Z.mod_pos_bound timeout poll_latency Hlat) as Hmod.
  pose proof (Z.div_mod timeout poll_latency ltac:(lia)) as Heq.
  rewrite Hk. lia.
Qed.
End Budget.

(** C2 (as amended): when every lookup misses the receipt and the poll
    interval is positive, the loop sleeps through the polls whose
    accumulated time is within the budget and raises [TimeExhausted] at
    the first poll that finds more than the budget accumulated; it never
    returns.  With an interval of 10 and a budget of 120 that poll is the
    fourteenth, with 130 accumulated. *)
Theorem always_missing_times_out self eth tx_hash need_hash poll_latency timeout :
  0 < poll_latency ->
  0 <= timeout ->
  (forall i, missing eth tx_hash i) ->
  let k := Z.to_nat (timeout / poll_latency + 1) in
  reaches self eth tx_hash need_hash poll_latency timeout k (Z.of_nat k * poll_latency)
  /\ timeout < Z.of_nat k * poll_latency
  /\ (forall fuel, (fuel <= k)%nat ->
        poll_loop fuel self eth tx_hash need_hash poll_latency timeout O 0 = None)
  /\ (forall fuel, (k < fuel)%nat ->
        poll_loop fuel self eth tx_hash need_hash poll_latency timeout O 0
        = Some (Raise (PExc TimeExhausted
                         [PStr ("Транзакция отсутствует в цепочке после "
                                +:+ pretty timeout +:+ " секунд")]))).
Proof.
  intros Hlat Htime Hmiss k.
  destruct (polls_within_budget poll_latency timeout Hlat Htime) as [Hin Hover].
  fold k in Hin, Hover.
  assert (Hreach : reaches self eth tx_hash need_hash poll_latency timeout k
                     (Z.of_nat k * poll_latency)).
  { apply reaches_missing; [lia | auto | done]. }
  split; [done|]. split; [done|]. split.
  - intros fuel Hfuel. by eapply poll_loop_before.
  - intros fuel Hfuel. by eapply poll_loop_times_out.
Qed.

(** Interval 10, budget 120, the receipt never found: thirteen polls go
    to sleep and the fourteenth raises. *)
Lemma always_missing_times_out_witness :
  reaches (client_of two_rpc_network) (node 100 [] (λ _, not_found)) "0xabc" false
    10 120 13 130
  /\ 120 < 130
  /\ (forall fuel, (fuel <= 13)%nat ->
        poll_loop fuel (client_of two_rpc_network) (node 100 [] (λ _, not_found))
          "0xabc" false 10 120 O 0 = None)
  /\ (forall fuel, (13 < fuel)%nat ->
        poll_loop fuel (client_of two_rpc_network) (node 100 [] (λ _, not_found))
          "0xabc" false 10 120 O 0
        = Some (Raise (PExc TimeExhausted
                         [PStr "Транзакция отсутствует в цепочке после 120 секунд"]))).
Proof.
  apply (always_missing_times_out (client_of two_rpc_network)
           (node 100 [] (λ _, not_found)) "0xabc" false 10 120).
  - lia.
  - lia.
  - intros i. eexists. reflexivity.
Defined.

(** C2 (counterexample): thirteen lookups miss, ten seconds apart, so
    that 130 s stand against a budget of 120 s; the fourteenth finds the
    receipt and the loop returns [True].  Likewise through
    [send_transaction], whose budget is 1200: 121 misses accumulate
    1210 s and the next lookup confirms. *)
Lemma late_receipt_is_confirmed :
  reaches (client_of two_rpc_network) (node 100 [] (found_after 13)) "0xabc" false
    10 120 13 130
  /\ 120 < 130
  /\ poll_loop 14 (client_of two_rpc_network) (node 100 [] (found_after 13))
       "0xabc" false 10 120 O 0 = Some (Ok PyTrue)
  /\ reaches (client_of two_rpc_network) (node 100 [] (found_after 121)) "0xabc" false
       10 1200 121 1210
  /\ send_transaction 122 (client_of two_rpc_network) (node 100 [] (found_after 121))
       transfer false false 10 default_timeout = Some (Ok PyTrue).
Proof.
  split; [|split; [lia|split; [by vm_compute|split; [|by vm_compute]]]].
  - apply (reaches_missing _ _ _ _ 10 120 13); [lia| |lia].
    intros i Hi. exists [PStr "Transaction with hash: 0xabc not found."].
    cbn. unfold found_after. by destruct (Nat.ltb_spec i 13); [|lia].
  - apply (reaches_missing _ _ _ _ 10 1200 121); [lia| |lia].
    intros i Hi. exists [PStr "Transaction with hash: 0xabc not found."].
    cbn. unfold found_after. by destruct (Nat.ltb_spec i 121); [|lia].
Qed.

(** X19: what the caller of [send_transaction] sees when the receipt
    never appears: the budget is 1200 and the [TimeExhausted] of the loop
    is caught by the outer handler and raised again as
    [BlockchainException]. *)
Lemma send_transaction_times_out fuel self eth transaction need_hash without_gas
    poll_latency timeout transaction' tx_hash :
  fill_gas eth transaction without_gas = Ok transaction' ->
  broadcast self eth transaction' = Ok tx_hash ->
  0 < poll_latency ->
  (forall i, missing eth tx_hash i) ->
  (Z.to_nat (1200 / poll_latency + 1) < fuel)%nat ->
  send_transaction fuel self eth transaction need_hash without_gas poll_latency timeout
  = Some (Raise (BlockchainException
                   (PExc TimeExhausted
                      [PStr "Транзакция отсутствует в цепочке после 1200 секунд"]))).
Proof.
  intros Hgas Hsend Hlat Hmiss Hfuel.
  rewrite (send_transaction_polls _ _ _ _ _ _ _ _ _ _ Hgas Hsend).
  destruct (polls_within_budget poll_latency 1200 Hlat ltac:(lia)) as [Hin Hover].
  erewrite poll_loop_times_out; [done| |apply Hmiss|exact Hover|exact Hfuel].
  apply reaches_missing; [lia | auto | done].
Qed.

Example send_transaction_times_out_10 :
  send_transaction 122 (client_of two_rpc_network) (node 100 [] (λ _, not_found))
    transfer false false 10 default_timeout
  = Some (Raise (BlockchainException
                   (PExc TimeExhausted
                      [PStr "Транзакция отсутствует в цепочке после 1200 секунд"])))
  /\ send_transaction 121 (client_of two_rpc_network) (node 100 [] (λ _, not_found))
       transfer false false 10 default_timeout = None.
Proof. split; by vm_compute. Qed.

(** C3 (the code at the failing input): every lookup fails with a
    connection error; after any number of polls the call is still in its
    loop, with ten seconds accumulated per poll and no bound applied. *)
Theorem persistent_error_never_ends fuel :
  send_transaction fuel (client_of two_rpc_network) (node 100 [] unreachable)
    transfer false false 10 default_timeout = None
  /\ reaches (client_of two_rpc_network) (node 100 [] unreachable) "0xabc" false
       10 1200 fuel (Z.of_nat fuel * 10).
Proof.
  assert (Hfail : forall j, failing (node 100 [] unreachable) "0xabc" j).
  { intros j. by exists connection_error. }
  split.
  - rewrite (send_transaction_polls _ _ _ _ _ _ _ _ transfer_with_gas "0xabc") by done.
    by rewrite poll_loop_failing.
  - apply reaches_failing. auto.
Qed.

(** ** Endpoint selection *)

Lemma choice_singleton {A} r (x : A) : choice r [x] = Ok x.
Proof. unfold choice. cbn [length]. by rewrite Nat.mod_1_r. Qed.

Lemma choice_elem_of {A} r (l : list A) x : choice r l = Ok x -> x ∈ l.
Proof.
  unfold choice. destruct (l !! _) eqn:E; [|done].
  intros [= ->]. by eapply list_elem_of_lookup_2.
Qed.

(** A new client is connected to the endpoint it remembers in [rpc]. *)
Lemma init_active r address_of_key network private_key name proxy self :
  init r address_of_key network private_key name proxy = Ok self ->
  endpoint_uri (w3 self) = rpc self /\ rpc self ∈ Network.rpc network.
Proof.
  unfold init. destruct (choice r _) eqn:E; [|done].
  cbn. destruct (address_of_key private_key); [|done].
  cbn. intros [= <-]. cbn. split; [done|]. by eapply choice_elem_of.
Qed.

(** [change_rpc] replaces [w3] at most: the network and its endpoint
    list, and the remembered [rpc], stay as they are. *)
Lemma change_rpc_frame r self self' log :
  change_rpc r self = Ok (self', log) ->
  network self' = network self /\ rpc self' = rpc self.
Proof.
  unfold change_rpc. destruct (negb _).
  - destruct (choice r _); [|done]. cbn. by intros [= <- _].
  - cbn. by intros [= <- _].
Qed.

(** With a single endpoint nothing changes and an error is logged. *)
Lemma change_rpc_single r self :
  length (Network.rpc (network self)) = 1%nat ->
  change_rpc r self
  = Ok (self, [(WARNING, "Замена RPS | " +:+ address self);
               (ERROR, "Не удалось сменить RPS | " +:+ address self)]).
Proof. intros H. unfold change_rpc. by rewrite H. Qed.

(** With several endpoints the new one is an endpoint of the network
    other than the one remembered in [rpc]. *)
Lemma change_rpc_avoids_rpc r self self' log :
  length (Network.rpc (network self)) <> 1%nat ->
  change_rpc r self = Ok (self', log) ->
  endpoint_uri (w3 self') <> rpc self
  /\ endpoint_uri (w3 self') ∈ Network.rpc (network self).
Proof.
  intros Hlen. unfold change_rpc.
  destruct (Nat.eqb_spec (length (Network.rpc (network self))) 1); [done|].
  cbn [negb]. destruct (choice r _) as [new_rpc|] eqn:E; [|done].
  cbn. intros [= <- _]. cbn.
  apply choice_elem_of, list_elem_of_filter in E. tauto.
Qed.

(** C9 (the code at the failing input): a client of a network with two
    endpoints, first connected to the first one.  Whatever is drawn, the
    first swap connects it to the second endpoint and the second swap
    connects it to the second endpoint again: [rpc], which the swap
    excludes, still names the first. *)
Theorem second_swap_keeps_endpoint r1 r2 :
  exists c0 c1 c2 log1 log2,
    init 0 test_address_of_key two_rpc_network "key" "acc" None = Ok c0
    /\ change_rpc r1 c0 = Ok (c1, log1)
    /\ change_rpc r2 c1 = Ok (c2, log2)
    /\ endpoint_uri (w3 c0) = "https://rpc-a.example"
    /\ endpoint_uri (w3 c1) = "https://rpc-b.example"
    /\ endpoint_uri (w3 c2) = endpoint_uri (w3 c1)
    /\ rpc c1 = "https://rpc-a.example"
    /\ Network.rpc (network c2) = ["https://rpc-a.example"; "https://rpc-b.example"].
Proof.
  eexists _, _, _, _, _. split; [reflexivity|].
  assert (Hswap : forall r c, network c = two_rpc_network -> rpc c = "https://rpc-a.example" ->
            change_rpc r c
            = Ok (with_w3 c (AsyncHTTPProvider "https://rpc-b.example" (request_kwargs c)),
                  [(WARNING, "Замена RPS | " +:+ address c);
                   (SUCCESS, "Замена RPS прошла успешно! | " +:+ address c)])).
  { intros r c Hnet Hrpc. unfold change_rpc. rewrite Hnet, Hrpc.
    change (filter _ _) with ["https://rpc-b.example"].
    by rewrite choice_singleton. }
  split; [by apply Hswap|]. split; [by apply Hswap|]. done.
Qed.

(** ** Arithmetic in double precision *)

Lemma rne_bounds a b : 0 < b -> - b <= 2 * (rne a b * b - a) <= b.
Proof.
  intros Hb. unfold rne.
  pose proof (Z.div_mod a b ltac:(lia)) as Hdm.
  pose proof (Z.mod_pos_bound a b Hb) as Hr.
  destruct (Z.ltb_spec (2 * (a mod b)) b); [nia|].
  destruct (Z.ltb_spec b (2 * (a mod b))); [nia|].
  destruct (Z.even (a / b)); nia.
Qed.

Lemma rne_exact q b : 0 < b -> rne (q * b) b = q.
Proof.
  intros Hb. unfold rne.
  rewrite Z.div_mul, Z.mod_mul by lia.
  by destruct (Z.ltb_spec (2 * 0) b); [|lia].
Qed.

Lemma pow2_pos k : 0 < 2 ^ k \/ (k < 0 /\ 2 ^ k = 0).
Proof.
  destruct (Z.le_gt_cases 0 k).
  - left. by apply Z.pow_pos_nonneg.
  - right. split; [done|]. by apply Z.pow_neg_r.
Qed.

(** Lowering the exponent by one doubles the scaled quotient. *)
Lemma scaled_shift a b e :
  scaled_num a (e - 1) * scaled_den b e = 2 * scaled_num a e * scaled_den b (e - 1).
Proof.
  unfold scaled_num, scaled_den.
  destruct (Z.le_gt_cases e 0).
  - rewrite (Z.max_l 0 e), (Z.max_l 0 (e - 1)) by lia.
    rewrite (Z.max_r 0 (- e)), (Z.max_r 0 (- (e - 1))) by lia.
    replace (- (e - 1)) with (Z.succ (- e)) by lia.
    rewrite Z.pow_succ_r by lia. ring.
  - rewrite (Z.max_r 0 e), (Z.max_r 0 (e - 1)) by lia.
    rewrite (Z.max_l 0 (- e)), (Z.max_l 0 (- (e - 1))) by lia.
    replace e with (Z.succ (e - 1)) at 1 by lia.
    rewrite Z.pow_succ_r by lia. ring.
Qed.

Lemma scaled_den_pos b e : 0 < b -> 0 < scaled_den b e.
Proof.
  intros. unfold scaled_den. apply Z.mul_pos_pos; [done|].
  apply Z.pow_pos_nonneg; lia.
Qed.

Lemma scaled_num_pos a e : 0 < a -> 0 < scaled_num a e.
Proof.
  intros. unfold scaled_num. apply Z.mul_pos_pos; [done|].
  apply Z.pow_pos_nonneg; lia.
Qed.

Lemma ulp_exponent_spec a b :
  0 < a -> 0 < b -> b < 2 ^ 1000 ->
  2 ^ 52 * scaled_den b (ulp_exponent a b) <= scaled_num a (ulp_exponent a b)
  /\ scaled_num a (ulp_exponent a b) < 2 ^ 53 * scaled_den b (ulp_exponent a b).
Proof.
  intros Ha Hb Hsmall. unfold ulp_exponent.
  rewrite (Z.abs_eq a) by lia.
  destruct (Z.log2_spec a Ha) as [Hla1 Hla2].
  destruct (Z.log2_spec b Hb) as [Hlb1 Hlb2].
  pose proof (Z.log2_nonneg a) as Hla0.
  pose proof (Z.log2_nonneg b) as Hlb0.
  assert (Hlb : Z.log2 b < 1000) by (apply Z.log2_lt_pow2; lia).
  set (la := Z.log2 a) in *. set (lb := Z.log2 b) in *.
  set (e1 := la - lb - 52).
  (* the ratio at e1 lies in (2^51, 2^53) *)
  assert (H1 : 2 ^ 51 * scaled_den b e1 < scaled_num a e1
               /\ scaled_num a e1 < 2 ^ 53 * scaled_den b e1).
  { unfold scaled_num, scaled_den.
    set (u := Z.max 0 (- e1)). set (v := Z.max 0 e1).
    assert (Hu : 0 <= u) by lia. assert (Hv : 0 <= v) by lia.
    assert (Huv : la + u = lb + 52 + v) by lia.
    assert (Hpu : 0 < 2 ^ u) by (apply Z.pow_pos_nonneg; lia).
    assert (Hpv : 0 < 2 ^ v) by (apply Z.pow_pos_nonneg; lia).
    assert (E1 : 2 ^ la * 2 ^ u = 2 ^ 51 * (2 ^ Z.succ lb * 2 ^ v)).
    { rewrite <- !Z.pow_add_r by lia. f_equal. lia. }
    assert (E2 : 2 ^ Z.succ la * 2 ^ u = 2 ^ 53 * (2 ^ lb * 2 ^ v)).
    { rewrite <- !Z.pow_add_r by lia. f_equal. lia. }
    split; nia. }
  pose proof (scaled_shift a b e1) as Hshift.
  pose proof (scaled_den_pos b e1 Hb). pose proof (scaled_den_pos b (e1 - 1) Hb).
  pose proof (scaled_num_pos a e1 Ha). pose proof (scaled_num_pos a (e1 - 1) Ha).
  destruct (Z.ltb_spec (scaled_num a e1) (2 ^ 52 * scaled_den b e1)) as [Hlt|Hge].
  - rewrite Z.max_l by lia. split; nia.
  - rewrite Z.max_l by lia. split; [lia|tauto].
Qed.

(** Rounding a quotient and then rounding to an integer: when the grid
    [1/d] of the first rounding is finer than [1/n], the result is still
    an integer nearest to [s / n]. *)
Lemma double_rounding s n d' :
  0 < n -> n < 2 * d' ->
  let d := 2 * d' in
  let m := rne (s * d) n in
  let R := rne m d in
  - n <= 2 * (R * n - s) <= n.
Proof.
  intros Hn Hd d m R.
  pose proof (rne_bounds (s * d) n Hn) as HB. fold m in HB.
  pose proof (rne_bounds m d ltac:(lia)) as HA. fold R in HA.
  unfold d in *.
  assert (Hcases : R * (2 * d') - m = d' \/ R * (2 * d') - m = - d'
                   \/ - (d' - 1) <= R * (2 * d') - m <= d' - 1) by lia.
  destruct Hcases as [Ht|[Ht|Ht]].
  - (* tie upwards: m = d' (2R - 1), so the first rounding was exact *)
    assert (Hm : m = d' * (2 * R - 1)) by lia.
    assert (HK : 2 * (m * n - s * (2 * d')) = 2 * d' * (n * (2 * R - 1) - 2 * s))
      by (rewrite Hm; ring).
    assert (n * (2 * R - 1) - 2 * s = 0) by nia.
    lia.
  - assert (Hm : m = d' * (2 * R + 1)) by lia.
    assert (HK : 2 * (m * n - s * (2 * d')) = 2 * d' * (n * (2 * R + 1) - 2 * s))
      by (rewrite Hm; ring).
    assert (n * (2 * R + 1) - 2 * s = 0) by nia.
    lia.
  - nia.
Qed.

Lemma mean_rounding s n :
  1 <= n -> n <= s -> s < 2 ^ 52 ->
  exists R, (mean ← true_div s n; round mean) = Ok R
            /\ - n <= 2 * (R * n - s) <= n.
Proof.
  intros Hn Hs Hbound.
  assert (Hn1000 : n < 2 ^ 1000).
  { assert ((2:Z) ^ 52 < 2 ^ 1000) by (apply Z.pow_lt_mono_r; lia). lia. }
  destruct (ulp_exponent_spec s n ltac:(lia) ltac:(lia) Hn1000) as [Hlow _].
  set (e := ulp_exponent s n) in *.
  assert (He : e < 0).
  { destruct (Z.le_gt_cases 0 e) as [Hge|]; [|done]. exfalso.
    unfold scaled_num, scaled_den in Hlow.
    rewrite (Z.max_l 0 (- e)), (Z.max_r 0 e) in Hlow by lia.
    assert (0 < 2 ^ e) by (apply Z.pow_pos_nonneg; lia).
    change (2 ^ 0) with 1 in Hlow. nia. }
  unfold scaled_num, scaled_den in Hlow.
  rewrite (Z.max_r 0 (- e)), (Z.max_l 0 e) in Hlow by lia.
  change (2 ^ 0) with 1 in Hlow.
  set (d' := 2 ^ (- e - 1)).
  assert (Hd : 2 ^ (- e) = 2 * d').
  { unfold d'. rewrite <- Z.pow_succ_r by lia. f_equal. lia. }
  assert (Hd' : 0 < d') by (apply Z.pow_pos_nonneg; lia).
  assert (Hfr : float_round s n = Finite (rne (s * (2 * d')) n) e).
  { unfold float_round. destruct (Z.eqb_spec s 0); [lia|]. fold e.
    destruct (Z.leb_spec 0 e); [lia|]. cbn [andb].
    unfold scaled_num, scaled_den.
    rewrite (Z.max_r 0 (- e)), (Z.max_l 0 e) by lia.
    change (2 ^ 0) with 1. by rewrite Hd, Z.mul_1_r. }
  exists (rne (rne (s * (2 * d')) n) (2 * d')). split.
  - unfold true_div. destruct (Z.eqb_spec n 0); [lia|].
    destruct (Z.ltb_spec n 0); [lia|]. rewrite Hfr. cbn.
    destruct (Z.leb_spec 0 e); [lia|]. by rewrite Hd.
  - apply double_rounding; [lia|]. rewrite Hd in Hlow. nia.
Qed.

(** A rounding that lands exactly half-way from its argument chose the
    even neighbour. *)
Lemma rne_tie_even a b :
  0 < b ->
  2 * (rne a b * b - a) = b \/ 2 * (rne a b * b - a) = - b ->
  Z.even (rne a b) = true.
Proof.
  intros Hb. unfold rne.
  pose proof (Z.div_mod a b ltac:(lia)) as Hdm.
  pose proof (Z.mod_pos_bound a b Hb) as Hr.
  destruct (Z.ltb_spec (2 * (a mod b)) b); [nia|].
  destruct (Z.ltb_spec b (2 * (a mod b))); [nia|].
  destruct (Z.even (a / b)) eqn:E; [done|]. intros _.
  rewrite Z.even_add, E. reflexivity.
Qed.

(** In the setting of [double_rounding], a result half-way from [s / n]
    comes from a quotient that was itself half-way: it is even. *)
Lemma double_rounding_tie s n d' :
  0 < n -> n < 2 * d' ->
  let d := 2 * d' in
  let m := rne (s * d) n in
  let R := rne m d in
  2 * (R * n - s) = n \/ 2 * (R * n - s) = - n ->
  Z.even R = true.
Proof.
  intros Hn Hd d m R Htie.
  pose proof (rne_bounds (s * d) n Hn) as HB. fold m in HB.
  pose proof (rne_bounds m d ltac:(lia)) as HA. fold R in HA.
  apply rne_tie_even; [lia|]. fold R. unfold d in *.
  assert (Hcases : R * (2 * d') - m = d' \/ R * (2 * d') - m = - d'
                   \/ - (d' - 1) <= R * (2 * d') - m <= d' - 1) by lia.
  destruct Hcases as [Ht|[Ht|Ht]]; [lia|lia|]. exfalso.
  destruct Htie as [Htie|Htie]; nia.
Qed.

(** The value of [round(s / n)] below [2^52]: two roundings to nearest,
    the first on a grid finer than [1 / n]. *)
Lemma mean_rounding_value s n :
  1 <= n -> n <= s -> s < 2 ^ 52 ->
  exists d', n < 2 * d'
             /\ (mean ← true_div s n; round mean)
                = Ok (rne (rne (s * (2 * d')) n) (2 * d')).
Proof.
  intros Hn Hs Hbound.
  assert (Hn1000 : n < 2 ^ 1000).
  { assert ((2:Z) ^ 52 < 2 ^ 1000) by (apply Z.pow_lt_mono_r; lia). lia. }
  destruct (ulp_exponent_spec s n ltac:(lia) ltac:(lia) Hn1000) as [Hlow _].
  set (e := ulp_exponent s n) in *.
  assert (He : e < 0).
  { destruct (Z.le_gt_cases 0 e) as [Hge|]; [|done]. exfalso.
    unfold scaled_num, scaled_den in Hlow.
    rewrite (Z.max_l 0 (- e)), (Z.max_r 0 e) in Hlow by lia.
    assert (0 < 2 ^ e) by (apply Z.pow_pos_nonneg; lia).
    change (2 ^ 0) with 1 in Hlow. nia. }
  unfold scaled_num, scaled_den in Hlow.
  rewrite (Z.max_r 0 (- e)), (Z.max_l 0 e) in Hlow by lia.
  change (2 ^ 0) with 1 in Hlow.
  set (d' := 2 ^ (- e - 1)).
  assert (Hd : 2 ^ (- e) = 2 * d').
  { unfold d'. rewrite <- Z.pow_succ_r by lia. f_equal. lia. }
  assert (Hd' : 0 < d') by (apply Z.pow_pos_nonneg; lia).
  exists d'. split; [rewrite Hd in Hlow; nia|].
  unfold true_div. destruct (Z.eqb_spec n 0); [lia|].
  destruct (Z.ltb_spec n 0); [lia|].
  unfold float_round. destruct (Z.eqb_spec s 0); [lia|]. fold e.
  destruct (Z.leb_spec 0 e); [lia|]. cbn [andb]. cbn.
  destruct (Z.leb_spec 0 e); [lia|].
  unfold scaled_num, scaled_den.
  rewrite (Z.max_r 0 (- e)), (Z.max_l 0 e) by lia.
  change (2 ^ 0) with 1. by rewrite Hd, Z.mul_1_r.
Qed.

(** A quotient [a / b = x / 2^k] with [x] below [2^53] is a binary64
    number: rounding leaves it as it is. *)
Lemma float_round_exact a b x k :
  0 < a -> 0 < b -> b < 2 ^ 1000 -> 0 <= k -> a * 2 ^ k = x * b -> x < 2 ^ 53 ->
  exists e j, 0 <= j /\ - 53 - k < e /\ e = - (k + j)
              /\ float_round a b = Finite (x * 2 ^ j) e.
Proof.
  intros Ha Hb Hsmall Hk Hx Hx53.
  destruct (ulp_exponent_spec a b Ha Hb Hsmall) as [Hlow Hup].
  set (e := ulp_exponent a b) in *.
  assert (Hpk : 0 < 2 ^ k) by (apply Z.pow_pos_nonneg; lia).
  assert (Hxpos : 0 < x) by nia.
  assert (He : e <= - k).
  { destruct (Z.le_gt_cases e (- k)) as [|Hgt]; [done|]. exfalso.
    unfold scaled_num, scaled_den in Hlow.
    destruct (Z.le_gt_cases 0 e).
    - rewrite (Z.max_l 0 (- e)), (Z.max_r 0 e) in Hlow by lia.
      change (2 ^ 0) with 1 in Hlow.
      assert (Hpe : 0 < 2 ^ e) by (apply Z.pow_pos_nonneg; lia).
      assert (2 <= 2 ^ e * 2 ^ k).
      { rewrite <- Z.pow_add_r by lia. change 2 with (2 ^ 1) at 1.
        apply Z.pow_le_mono_r; lia. }
      change (2 ^ 53) with (2 ^ 52 * 2) in Hx53. nia.
    - rewrite (Z.max_r 0 (- e)), (Z.max_l 0 e) in Hlow by lia.
      change (2 ^ 0) with 1 in Hlow.
      assert (E : 2 ^ k = 2 ^ (- e) * 2 ^ (k + e)).
      { rewrite <- Z.pow_add_r by lia. f_equal. lia. }
      assert (Hpe : 0 < 2 ^ (- e)) by (apply Z.pow_pos_nonneg; lia).
      assert (2 <= 2 ^ (k + e)).
      { change 2 with (2 ^ 1) at 1. apply Z.pow_le_mono_r; lia. }
      change (2 ^ 53) with (2 ^ 52 * 2) in Hx53. nia. }
  set (j := - e - k).
  assert (Hj : 0 <= j) by lia.
  assert (Hpj : 0 < 2 ^ j) by (apply Z.pow_pos_nonneg; lia).
  assert (Hnum : scaled_num a e = x * 2 ^ j * b).
  { unfold scaled_num. rewrite (Z.max_r 0 (- e)) by lia.
    replace (- e) with (k + j) by lia. rewrite Z.pow_add_r by lia. nia. }
  assert (Hden : scaled_den b e = b).
  { unfold scaled_den. rewrite (Z.max_l 0 e) by lia. change (2 ^ 0) with 1. lia. }
  rewrite Hnum, Hden in Hup.
  assert (Hj53 : j < 53).
  { destruct (Z.le_gt_cases 53 j); [|done]. exfalso.
    assert (2 ^ 53 <= 2 ^ j) by (apply Z.pow_le_mono_r; lia). nia. }
  exists e, j. split; [done|]. split; [lia|]. split; [lia|].
  unfold float_round. destruct (Z.eqb_spec a 0); [lia|]. fold e.
  rewrite Hnum, Hden, rne_exact by done.
  destruct (Z.leb_spec 0 e); [|done]. cbn [andb].
  assert (e = 0) by lia. assert (j = 0) by lia. subst j.
  destruct (Z.leb_spec (2 ^ 1024) (Z.abs (x * 2 ^ (- e - k)) * 2 ^ e)); [|done].
  exfalso. replace (- e - k) with 0 in * by lia. replace e with 0 in * by lia.
  change (2 ^ 0) with 1 in *. rewrite !Z.mul_1_r, Z.abs_eq in * by lia.
  assert ((2:Z) ^ 53 < 2 ^ 1024) by (apply Z.pow_lt_mono_r; lia). lia.
Qed.

(** Below [2^53 / 3] the product with 1.5 is exact: [int(n * 1.5)] is
    [3 n / 2] rounded down. *)
Lemma int_mul_1_5_exact n :
  0 <= n -> 3 * n < 2 ^ 53 -> int_mul_1_5 n = Ok (3 * n / 2).
Proof.
  intros Hn H3. unfold int_mul_1_5, float_of_int.
  destruct (Z.eq_dec n 0) as [->|Hnz]; [done|].
  destruct (float_round_exact n 1 n 0) as (e & j & Hj & He & Hej & ->);
    [lia|lia|by apply (Z.pow_lt_mono_r 2 0 1000)|lia|change (2 ^ 0) with 1; lia|lia|].
  cbn. unfold fmul_1_5.
  assert (Hpj : 0 < 2 ^ j) by (apply Z.pow_pos_nonneg; lia).
  assert (Hnum : scaled_num (3 * (n * 2 ^ j)) (1 - e) = 3 * n * 2 ^ j).
  { unfold scaled_num. rewrite (Z.max_l 0 (- (1 - e))) by lia.
    change (2 ^ 0) with 1. lia. }
  assert (Hden : scaled_den 1 (1 - e) = 2 ^ (j + 1)).
  { unfold scaled_den. rewrite (Z.max_r 0 (1 - e)) by lia.
    rewrite Z.mul_1_l. f_equal. lia. }
  rewrite Hnum, Hden.
  destruct (float_round_exact (3 * n * 2 ^ j) (2 ^ (j + 1)) (3 * n) 1)
    as (e' & j' & Hj' & He' & Hej' & ->).
  - nia.
  - apply Z.pow_pos_nonneg; lia.
  - apply Z.pow_lt_mono_r; lia.
  - lia.
  - rewrite Z.pow_add_r by lia. ring.
  - lia.
  - cbn. destruct (Z.leb_spec 0 e'); [lia|]. f_equal.
    assert (Hpj' : 0 < 2 ^ j') by (apply Z.pow_pos_nonneg; lia).
    rewrite Z.quot_div_nonneg by (try apply Z.pow_pos_nonneg; nia).
    replace (- e') with (1 + j') by lia.
    rewrite Z.pow_add_r by lia. change (2 ^ 1) with 2.
    by rewrite Z.div_mul_cancel_r by lia.
Qed.

(** ** Fee estimation *)

Lemma sum_from a l : foldl Z.add a l = a + sum l.
Proof.
  unfold sum. revert a. induction l as [|x l IH]; intros a; cbn; [lia|].
  rewrite IH, (IH (0 + x)). lia.
Qed.

Lemma sum_cons x l : sum (x :: l) = x + sum l.
Proof. unfold sum at 1. cbn. rewrite sum_from. lia. Qed.

(** Positive samples: there are at most as many as their sum. *)
Lemma length_le_sum l :
  Forall (λ x, 0 <= x) l -> Z.of_nat (length (non_zero l)) <= sum (non_zero l).
Proof.
  unfold non_zero. induction 1 as [|x l Hx _ IH]; [done|].
  rewrite filter_cons. case_decide; [|done].
  cbn [length]. rewrite sum_cons. lia.
Qed.

(** The comprehension keeps the non-zero first entries, provided every
    block has one. *)
Lemma non_empty_block_priority_fees_spec reward :
  Forall (λ fee, fee ≠ []) reward ->
  non_empty_block_priority_fees reward = Ok (non_zero (samples reward)).
Proof.
  unfold non_zero, samples. induction 1 as [|fee reward Hfee _ IH]; [done|].
  destruct fee as [|fee0 rest]; [done|].
  cbn [non_empty_block_priority_fees]. rewrite IH.
  rewrite fmap_cons, filter_cons. cbn.
  case_decide; by destruct (Z.eqb_spec fee0 0).
Qed.

(** C4 (as amended): on a window in which every block has a sample, the
    samples are not negative and the non-zero ones sum to less than
    [2^52], the estimator returns an integer nearest to their arithmetic
    mean -- the even one when the mean is half-way between two -- and 0
    when there is none. *)
Theorem priority_fee_is_rounded_mean reward :
  Forall (λ fee, fee ≠ []) reward ->
  Forall (λ x, 0 <= x) (samples reward) ->
  sum (non_zero (samples reward)) < 2 ^ 52 ->
  exists fee,
    priority_fee_of reward = Ok fee
    /\ (non_zero (samples reward) = [] -> fee = 0)
    /\ (non_zero (samples reward) ≠ [] ->
        let n := Z.of_nat (length (non_zero (samples reward))) in
        let total := sum (non_zero (samples reward)) in
        - n <= 2 * (fee * n - total) <= n
        /\ (2 * (fee * n - total) = n \/ 2 * (fee * n - total) = - n ->
            Z.even fee = true)).
Proof.
  intros Hblocks Hpos Hbound. unfold priority_fee_of.
  rewrite non_empty_block_priority_fees_spec by done. cbn.
  pose proof (length_le_sum _ Hpos) as Hlen.
  destruct (non_zero (samples reward)) as [|x fees] eqn:E.
  - exists 0. by split.
  - set (n := Z.of_nat (length (x :: fees))) in *.
    assert (Hn : 1 <= n) by (unfold n; cbn [length]; lia).
    rewrite Z.max_l by lia.
    destruct (mean_rounding_value (sum (x :: fees)) n Hn Hlen Hbound) as (d' & Hd & ->).
    eexists. split; [done|]. split; [done|]. intros _. split.
    + apply double_rounding; lia.
    + apply double_rounding_tie; lia.
Qed.

(** The window [[5],[0],[3],[0]]: two non-zero samples, mean 4. *)
Lemma priority_fee_is_rounded_mean_witness :
  exists fee,
    priority_fee_of [[5]; [0]; [3]; [0]] = Ok fee
    /\ (non_zero (samples [[5]; [0]; [3]; [0]]) = [] -> fee = 0)
    /\ (non_zero (samples [[5]; [0]; [3]; [0]]) ≠ [] ->
        let n := Z.of_nat (length (non_zero (samples [[5]; [0]; [3]; [0]]))) in
        let total := sum (non_zero (samples [[5]; [0]; [3]; [0]])) in
        - n <= 2 * (fee * n - total) <= n
        /\ (2 * (fee * n - total) = n \/ 2 * (fee * n - total) = - n ->
            Z.even fee = true)).
Proof.
  apply (priority_fee_is_rounded_mean [[5]; [0]; [3]; [0]]).
  - repeat (apply List.Forall_cons; [discriminate|]). apply List.Forall_nil.
  - cbn. repeat (apply List.Forall_cons; [lia|]). apply List.Forall_nil.
  - vm_compute; reflexivity.
Defined.

Example priority_fee_5_0_3_0 : priority_fee_of [[5]; [0]; [3]; [0]] = Ok 4.
Proof. by vm_compute. Qed.

Example priority_fee_empty : priority_fee_of [] = Ok 0.
Proof. by vm_compute. Qed.

Example priority_fee_ties_to_even : priority_fee_of [[2]; [3]] = Ok 2.
Proof. by vm_compute. Qed.

(** C4 (counterexample): three samples near [2^51] whose sum is
    6755399441055748 and whose mean is 2251799813685249 + 1/3.  The
    quotient is first rounded to the double 2251799813685249.5 and then
    to the even neighbour 2251799813685250, which is 2/3 away from the
    mean. *)
Lemma priority_fee_double_rounding :
  priority_fee_of [[2251799813685249]; [2251799813685249]; [2251799813685250]]
  = Ok 2251799813685250
  /\ sum (non_zero (samples [[2251799813685249]; [2251799813685249]; [2251799813685250]]))
     = 6755399441055748
  /\ ~ (- 3 <= 2 * (2251799813685250 * 3 - 6755399441055748) <= 3)
  /\ - 3 <= 2 * (2251799813685249 * 3 - 6755399441055748) <= 3.
Proof. split; [by vm_compute|]. split; [by vm_compute|]. lia. Qed.

(** ** Building the transaction *)

(** C6: on a network with priority fees, [maxFeePerGas] is
    [int((base_fee + priority_fee) * 1.5)]: the sum is formed first and
    then scaled.  The product is exact, [3 * sum / 2] rounded down, as
    long as three times the sum stays below [2^53]. *)
Theorem max_fee_is_scaled_sum self eth value nonce base_fee reward priority_fee max_fee :
  Network.eip1559_support (network self) = true ->
  get_transaction_count eth (address self) = Ok nonce ->
  gas_price eth = Ok base_fee ->
  fee_history eth 25 "latest" [Finite 20 0] = Ok reward ->
  priority_fee_of reward = Ok priority_fee ->
  int_mul_1_5 (base_fee + priority_fee) = Ok max_fee ->
  exists tx_params,
    prepare_transaction self eth value = Ok tx_params
    /\ tx_params !! "maxPriorityFeePerGas" = Some (PInt priority_fee)
    /\ tx_params !! "maxFeePerGas" = Some (PInt max_fee)
    /\ (0 <= base_fee + priority_fee -> 3 * (base_fee + priority_fee) < 2 ^ 53 ->
        max_fee = 3 * (base_fee + priority_fee) / 2).
Proof.
  intros Hflag Hnonce Hprice Hhist Hfee Hmul.
  eexists. split; [|split; [|split]].
  - unfold prepare_transaction, get_priotiry_fee.
    rewrite Hnonce. cbn. rewrite Hflag, Hprice. cbn. rewrite Hhist. cbn.
    rewrite Hfee. cbn. rewrite Hmul. cbn. reflexivity.
  - reflexivity.
  - reflexivity.
  - intros H0 H53. rewrite int_mul_1_5_exact in Hmul by done. congruence.
Qed.

(** Base fee 100 and the window [[5],[0],[3],[0]]: priority fee 4,
    [maxFeePerGas = int(104 * 1.5) = 156]. *)
Lemma max_fee_is_scaled_sum_witness :
  exists tx_params,
    prepare_transaction (client_of two_rpc_network)
      (node 100 [[5]; [0]; [3]; [0]] (λ _, not_found)) 0 = Ok tx_params
    /\ tx_params !! "maxPriorityFeePerGas" = Some (PInt 4)
    /\ tx_params !! "maxFeePerGas" = Some (PInt 156)
    /\ (0 <= 100 + 4 -> 3 * (100 + 4) < 2 ^ 53 -> 156 = 3 * (100 + 4) / 2).
Proof.
  apply (max_fee_is_scaled_sum (client_of two_rpc_network)
           (node 100 [[5]; [0]; [3]; [0]] (λ _, not_found)) 0 3 100
           [[5]; [0]; [3]; [0]] 4 156);
    vm_compute; reflexivity.
Defined.

(** C5 (as amended): a transaction that [prepare_transaction] returns
    carries exactly one pricing shape, chosen by [eip1559_support] alone:
    with the flag, [maxPriorityFeePerGas], [maxFeePerGas] and
    [type = '0x2'] and no [gasPrice]; without it, only [gasPrice], which
    is [int(gas_price * 1.5)] in double precision and, for a gas price
    that is not negative and whose triple is below [2^53], the gas price
    times 1.5 truncated. *)
Theorem pricing_shape_follows_flag self eth value tx_params :
  prepare_transaction self eth value = Ok tx_params ->
  if Network.eip1559_support (network self) then
    (exists priority_fee max_fee,
       tx_params !! "maxPriorityFeePerGas" = Some (PInt priority_fee)
       /\ tx_params !! "maxFeePerGas" = Some (PInt max_fee))
    /\ tx_params !! "type" = Some (PStr "0x2")
    /\ tx_params !! "gasPrice" = None
  else
    (exists price gas_price',
       gas_price eth = Ok price
       /\ int_mul_1_5 price = Ok gas_price'
       /\ tx_params !! "gasPrice" = Some (PInt gas_price')
       /\ (0 <= price -> 3 * price < 2 ^ 53 -> gas_price' = 3 * price / 2))
    /\ tx_params !! "maxPriorityFeePerGas" = None
    /\ tx_params !! "maxFeePerGas" = None
    /\ tx_params !! "type" = None.
Proof.
  unfold prepare_transaction.
  destruct (get_transaction_count eth (address self)) as [nonce|]; [|done]. cbn.
  destruct (Network.eip1559_support (network self)).
  - destruct (gas_price eth) as [base_fee|]; [|done]. cbn.
    destruct (get_priotiry_fee eth) as [priority_fee|]; [|done]. cbn.
    destruct (int_mul_1_5 (base_fee + priority_fee)) as [max_fee|]; [|done]. cbn.
    intros [= <-]. split; [by exists priority_fee, max_fee|]. by split.
  - destruct (gas_price eth) as [price|]; [|done]. cbn.
    destruct (int_mul_1_5 price) as [gas_price'|] eqn:Hmul; [|done]. cbn.
    intros [= <-]. split; [|done].
    exists price, gas_price'. split; [done|]. split; [done|]. split; [done|].
    intros H0 H53. rewrite int_mul_1_5_exact in Hmul by done. congruence.
Qed.


(** One transaction on a network with priority fees and one on a
    network without. *)
Lemma pricing_shape_follows_flag_witness :
  (priced_transaction !! "type" = Some (PStr "0x2")
   /\ priced_transaction !! "gasPrice" = None)
  /\ (legacy_transaction !! "maxPriorityFeePerGas" = None
      /\ legacy_transaction !! "maxFeePerGas" = None
      /\ legacy_transaction !! "type" = None).
Proof.
  split.
  - assert (H : prepare_transaction (client_of two_rpc_network)
                  (node 100 [[5]; [0]; [3]; [0]] (λ _, not_found)) 0
                = Ok priced_transaction) by (vm_compute; reflexivity).
    exact (proj2 (pricing_shape_follows_flag _ _ _ _ H)).
  - assert (H : prepare_transaction (client_of one_rpc_network)
                  (node 100 [] (λ _, not_found)) 0
                = Ok legacy_transaction) by (vm_compute; reflexivity).
    exact (proj2 (pricing_shape_follows_flag _ _ _ _ H)).
Defined.

(** C5 (counterexample): on a network without priority fees the node
    reports the gas price 6004799503160662.  One and a half times that is
    the integer 9007199254740993, which is [2^53 + 1] and no double: the
    product is rounded and the transaction is built with
    [gasPrice = 9007199254740992]. *)
Lemma legacy_gas_price_is_rounded :
  exists tx_params,
    prepare_transaction (client_of one_rpc_network)
      (node 6004799503160662 [] (λ _, not_found)) 0 = Ok tx_params
    /\ tx_params !! "gasPrice" = Some (PInt 9007199254740992)
    /\ 2 * 9007199254740993 = 3 * 6004799503160662
    /\ 9007199254740992 <> 9007199254740993.
Proof.
  eexists. split; [vm_compute; reflexivity|]. split; [by vm_compute|]. lia.
Qed.


(** ** More on the confirmation loop *)

Section Accounting.
Context (self : Client) (eth : Eth) (tx_hash : string) (need_hash : bool).
Context (poll_latency timeout : Z).

Local Abbreviation loop fuel i t :=
  (poll_loop fuel self eth tx_hash need_hash poll_latency timeout i t).
Local Abbreviation arrives i t :=
  (reaches self eth tx_hash need_hash poll_latency timeout i t).

(** [total_time] is [poll_latency] for every lookup that raised; polls
    that found a pending receipt add nothing. *)
Lemma reaches_total_time i t :
  arrives i t -> t = Z.of_nat (raised eth tx_hash i) * poll_latency.
Proof.
  induction 1 as [|i t t' _ IH Hstep]; [done|].
  cbn [raised]. unfold poll_once in Hstep.
  destruct (get_transaction_receipt eth i tx_hash) as [receipts|error].
  - destruct (py_eq_int _ 1); [by destruct need_hash|].
    destruct (is_None _); [|done]. injection Hstep as <-. lia.
  - destruct (isinstance error TransactionNotFound).
    + destruct (timeout <? t); [done|]. injection Hstep as <-. lia.
    + injection Hstep as <-. lia.
Qed.

Local Abbreviation ended i t outcome :=
  (ended_at self eth tx_hash need_hash timeout i t outcome).

Lemma poll_loop_ended fuel : forall i t outcome,
  arrives i t -> loop fuel i t = Some outcome ->
  exists j u, (j < i + fuel)%nat /\ arrives j u /\ ended j u outcome.
Proof.
  induction fuel as [|fuel IH]; intros i t outcome Hreach; [done|].
  rewrite poll_loop_unfold.
  destruct (poll_once _ _ _ _ _ _ _) as [v|error|t'] eqn:Hstep.
  - intros [= <-]. exists i, t. split; [lia|]. split; [done|].
    unfold poll_once in Hstep.
    destruct (get_transaction_receipt eth i tx_hash) as [receipts|error] eqn:Hlook.
    + destruct (py_eq_int _ 1) eqn:H1.
      * destruct need_hash; injection Hstep as <-.
        -- exact (ended_confirmed _ _ _ true _ _ _ receipts Hlook H1).
        -- exact (ended_confirmed _ _ _ false _ _ _ receipts Hlook H1).
      * destruct (is_None _) eqn:HN; [done|]. injection Hstep as <-.
        by eapply ended_failed.
    + destruct (isinstance error TransactionNotFound); [|done].
      by destruct (timeout <? t).
  - intros [= <-]. exists i, t. split; [lia|]. split; [done|].
    unfold poll_once in Hstep.
    destruct (get_transaction_receipt eth i tx_hash) as [receipts|error'] eqn:Hlook.
    + destruct (py_eq_int _ 1); [by destruct need_hash|]. by destruct (is_None _).
    + destruct error' as [| | | | |cls args]; try done.
      destruct cls; try done. cbn in Hstep.
      destruct (Z.ltb_spec timeout t); [|done]. injection Hstep as <-.
      apply ended_exhausted; [by exists args|done].
  - intros Hloop.
    destruct (IH (S i) t' outcome) as (j & u & Hj & Hu & Hend); [|done|].
    + by eapply reaches_sleep.
    + exists j, u. split; [lia|done].
Qed.
End Accounting.

(** A receipt that stays pending, or a lookup that keeps failing while
    [total_time] cannot grow, keeps the loop going. *)
Lemma poll_loop_pending self eth tx_hash need_hash poll_latency timeout fuel :
  forall i t, (forall j, pending eth tx_hash j) ->
  poll_loop fuel self eth tx_hash need_hash poll_latency timeout i t = None.
Proof.
  induction fuel as [|fuel IH]; intros i t Hpend; [done|].
  rewrite poll_loop_unfold. destruct (Hpend i) as (receipts & -> & Hstatus).
  unfold poll_once. rewrite Hstatus. cbn. by apply IH.
Qed.

Lemma poll_loop_stalled self eth tx_hash need_hash poll_latency timeout fuel :
  poll_latency <= 0 -> 0 <= timeout ->
  forall i t, t <= 0 -> (forall j, missing eth tx_hash j) ->
  poll_loop fuel self eth tx_hash need_hash poll_latency timeout i t = None.
Proof.
  intros Hlat Htime. induction fuel as [|fuel IH]; intros i t Ht Hmiss; [done|].
  rewrite poll_loop_unfold. destruct (Hmiss i) as [args ->].
  rewrite poll_once_not_found.
  destruct (Z.ltb_spec timeout t); [lia|]. apply IH; [lia|done].
Qed.

(** X1: whatever [send_transaction] returns is backed by what the node
    said: a hash only when the caller asked for one and a lookup found a
    receipt with status 1 for the hash of the broadcast; [True] only for
    such a receipt or for a broadcast that failed with "already known"; a
    [SoftwareException] only for a receipt with another status. *)
Theorem returned_value_is_backed fuel self eth transaction need_hash without_gas
    poll_latency timeout v :
  send_transaction fuel self eth transaction need_hash without_gas poll_latency timeout
  = Some (Ok v) ->
  exists transaction',
    fill_gas eth transaction without_gas = Ok transaction'
    /\ ((exists error,
           broadcast self eth transaction' = Raise error
           /\ get_normalize_error error = PStr "already known" /\ v = PyTrue)
        \/ (exists tx_hash i receipts,
              broadcast self eth transaction' = Ok tx_hash
              /\ (i < fuel)%nat
              /\ get_transaction_receipt eth i tx_hash = Ok receipts
              /\ if py_eq_int (dict_get receipts "status" PNone) 1
                 then v = (if need_hash then TxHash tx_hash else PyTrue)
                 else is_None (dict_get receipts "status" PNone) = false
                      /\ exists message, v = SoftwareException message)).
Proof.
  unfold send_transaction.
  destruct (fill_gas eth transaction without_gas) as [transaction'|]; [|done].
  intros Hrun. exists transaction'. split; [done|].
  destruct (broadcast self eth transaction') as [tx_hash|error].
  - right. cbn zeta in Hrun.
    destruct (poll_loop _ _ _ _ _ _ _ _ _) as [outcome|] eqn:Hloop; [|done].
    destruct (poll_loop_ended _ _ _ _ _ _ _ _ _ _ (reaches_start _ _ _ _ _ _) Hloop)
      as (j & u & Hj & _ & Hend).
    exists tx_hash, j.
    destruct Hend as [receipts Hlook H1|receipts Hlook H1 HN|]; [| |done].
    + exists receipts. rewrite H1. cbn in Hrun. injection Hrun as <-. by repeat split.
    + exists receipts. rewrite H1. cbn in Hrun. injection Hrun as <-.
      repeat split; [lia|done|done|by eexists].
  - left. exists error. destruct (py_eq_str _ _) eqn:E; [|done].
    apply py_eq_str_spec in E. injection Hrun as <-. by repeat split.
Qed.

(** X2: after a successful broadcast the only exception of
    [send_transaction] is the wrapped [TimeExhausted], and it is raised
    only at a lookup that missed after the lookups that raised have
    accumulated more than 1200: the call never gives up earlier. *)
Theorem timeout_needs_patience fuel self eth transaction need_hash without_gas
    poll_latency timeout transaction' tx_hash e :
  fill_gas eth transaction without_gas = Ok transaction' ->
  broadcast self eth transaction' = Ok tx_hash ->
  send_transaction fuel self eth transaction need_hash without_gas poll_latency timeout
  = Some (Raise e) ->
  e = BlockchainException
        (PExc TimeExhausted [PStr "Транзакция отсутствует в цепочке после 1200 секунд"])
  /\ exists i, (i < fuel)%nat
               /\ missing eth tx_hash i
               /\ 1200 < Z.of_nat (raised eth tx_hash i) * poll_latency.
Proof.
  intros Hgas Hsend.
  rewrite (send_transaction_polls _ _ _ _ _ _ _ _ _ _ Hgas Hsend).
  destruct (poll_loop _ _ _ _ _ _ _ _ _) as [outcome|] eqn:Hloop; [|done].
  destruct (poll_loop_ended _ _ _ _ _ _ _ _ _ _ (reaches_start _ _ _ _ _ _) Hloop)
    as (j & u & Hj & Hreach & Hend).
  destruct Hend as [receipts _ _|receipts _ _ _|Hmiss Hover]; [done|done|].
  cbn. intros [= <-]. split; [done|]. exists j. split; [lia|]. split; [done|].
  by rewrite <- (reaches_total_time _ _ _ _ _ _ _ _ Hreach).
Qed.

(** X3: a receipt that exists but keeps [status = None] is polled for
    ever: no time accumulates and no budget applies. *)
Theorem pending_receipt_never_ends fuel self eth transaction need_hash without_gas
    poll_latency timeout transaction' tx_hash :
  fill_gas eth transaction without_gas = Ok transaction' ->
  broadcast self eth transaction' = Ok tx_hash ->
  (forall i, pending eth tx_hash i) ->
  send_transaction fuel self eth transaction need_hash without_gas poll_latency timeout
  = None
  /\ reaches self eth tx_hash need_hash poll_latency 1200 fuel 0.
Proof.
  intros Hgas Hsend Hpend. split.
  - rewrite (send_transaction_polls _ _ _ _ _ _ _ _ _ _ Hgas Hsend).
    by rewrite poll_loop_pending.
  - induction fuel as [|fuel IH]; [apply reaches_start|].
    eapply reaches_sleep; [exact IH|].
    destruct (Hpend fuel) as (receipts & -> & Hstatus).
    unfold poll_once. by rewrite Hstatus.
Qed.

(** X4: with a poll interval of zero or less nothing accumulates against
    the budget, so a receipt that never appears is looked up for ever. *)
Theorem nonpositive_latency_never_times_out fuel self eth transaction need_hash
    without_gas poll_latency timeout transaction' tx_hash :
  fill_gas eth transaction without_gas = Ok transaction' ->
  broadcast self eth transaction' = Ok tx_hash ->
  poll_latency <= 0 ->
  (forall i, missing eth tx_hash i) ->
  send_transaction fuel self eth transaction need_hash without_gas poll_latency timeout
  = None.
Proof.
  intros Hgas Hsend Hlat Hmiss.
  rewrite (send_transaction_polls _ _ _ _ _ _ _ _ _ _ Hgas Hsend).
  by rewrite poll_loop_stalled.
Qed.

(** X5: a failure of the gas estimation is raised as
    [BlockchainException] of the normalized error, "already known"
    included: only the broadcast has that exception. *)
Theorem estimation_failure_is_raised fuel self eth transaction need_hash
    poll_latency timeout error :
  estimate_gas eth transaction = Raise error ->
  send_transaction fuel self eth transaction need_hash false poll_latency timeout
  = Some (Raise (BlockchainException (get_normalize_error error))).
Proof.
  intros Hest. unfold send_transaction, fill_gas. rewrite Hest. reflexivity.
Qed.

(** X6: the gas limit is the estimate times 1.5 rounded down, never
    below the estimate; it replaces a limit the caller had put in, and no
    other field of the transaction changes. *)
Theorem gas_limit_has_headroom eth transaction gas :
  estimate_gas eth transaction = Ok gas ->
  0 <= gas -> 3 * gas < 2 ^ 53 ->
  exists transaction',
    fill_gas eth transaction false = Ok transaction'
    /\ transaction' !! "gas" = Some (PInt (3 * gas / 2))
    /\ gas <= 3 * gas / 2
    /\ forall key, key <> "gas" -> transaction' !! key = transaction !! key.
Proof.
  intros Hest H0 H53. exists (<[ "gas" := PInt (3 * gas / 2) ]> transaction).
  split; [|split; [|split]].
  - unfold fill_gas. rewrite Hest. cbn. by rewrite int_mul_1_5_exact.
  - apply lookup_insert_eq.
  - apply Z.div_le_lower_bound; lia.
  - intros key Hkey. by apply lookup_insert_ne.
Qed.

(** X7: a failed broadcast counts as sent exactly when the first
    argument of the exception is a dictionary whose ["message"] is the
    string "already known"; the text of the exception alone never does. *)
Theorem already_known_needs_payload fuel self eth transaction need_hash without_gas
    poll_latency timeout transaction' cls args :
  fill_gas eth transaction without_gas = Ok transaction' ->
  broadcast self eth transaction' = Raise (PExc cls args) ->
  send_transaction fuel self eth transaction need_hash without_gas poll_latency timeout
  = Some (Ok PyTrue)
  <-> exists d rest, args = PDict d :: rest /\ d !! "message" = Some (PStr "already known").
Proof.
  intros Hgas Hsend. unfold send_transaction. rewrite Hgas, Hsend.
  destruct (py_eq_str _ _) eqn:E.
  - split; [intros _|done]. apply py_eq_str_spec in E.
    destruct args as [|[| | | |d|] rest]; try done.
    exists d, rest. split; [done|]. cbn in E. unfold dict_get in E.
    by destruct (d !! "message") as [m|]; [subst m|].
  - split; [done|]. intros (d & rest & -> & Hmsg).
    cbn in E. unfold dict_get in E. by rewrite Hmsg in E.
Qed.

(** ** More on fee estimation *)

(** On a window whose blocks all have a sample the estimate is a
    function of the non-zero samples. *)
Lemma priority_fee_of_samples reward :
  Forall (λ fee, fee ≠ []) reward ->
  priority_fee_of reward
  = (mean ← true_div (sum (non_zero (samples reward)))
              (Z.max (Z.of_nat (length (non_zero (samples reward)))) 1);
     round mean).
Proof.
  intros H. unfold priority_fee_of.
  by rewrite non_empty_block_priority_fees_spec.
Qed.

Lemma sum_permutation l l' : l ≡ₚ l' -> sum l = sum l'.
Proof.
  induction 1 as [|x l l' _ IH|x y l|l l' l'' _ IH1 _ IH2]; [done|..].
  - by rewrite !sum_cons, IH.
  - rewrite !sum_cons. lia.
  - congruence.
Qed.

Lemma sum_bounds lo hi l :
  Forall (λ x, lo <= x <= hi) l ->
  Z.of_nat (length l) * lo <= sum l <= Z.of_nat (length l) * hi.
Proof.
  induction 1 as [|x l Hx _ IH]; [done|].
  rewrite sum_cons. cbn [length]. lia.
Qed.

Lemma non_zero_positive l :
  Forall (λ x, 0 <= x) l -> Forall (λ x, 1 <= x) (non_zero l).
Proof.
  unfold non_zero. induction 1 as [|x l Hx _ IH]; [done|].
  rewrite filter_cons. case_decide; [|done]. constructor; [lia|done].
Qed.

Lemma empty_block_raises (reward : list (list Z)) :
  [] ∈ reward ->
  non_empty_block_priority_fees reward
  = Raise (PExc IndexError [PStr "list index out of range"]).
Proof.
  induction reward as [|fee reward IH]; [by intros ?%elem_of_nil|].
  intros [<-|Hin]%elem_of_cons; [done|].
  destruct fee as [|fee0 rest]; [done|].
  cbn [non_empty_block_priority_fees]. by rewrite IH.
Qed.

Lemma no_empty_block (reward : list (list Z)) : [] ∉ reward -> Forall (λ fee, fee ≠ []) reward.
Proof.
  intros H. apply Forall_forall. intros fee Hin ->. done.
Qed.

(** X8: the estimate reads the first entry of each block only, skips the
    blocks whose entry is zero and does not depend on the order of the
    blocks. *)
Theorem priority_fee_depends_on_non_zero_samples reward reward' :
  Forall (λ fee, fee ≠ []) reward ->
  Forall (λ fee, fee ≠ []) reward' ->
  non_zero (samples reward) ≡ₚ non_zero (samples reward') ->
  priority_fee_of reward = priority_fee_of reward'.
Proof.
  intros H H' Hperm. rewrite !priority_fee_of_samples by done.
  by rewrite (sum_permutation _ _ Hperm), (Permutation_length Hperm).
Qed.

(** X9: on non-negative samples whose non-zero ones sum to less than
    [2^52], the estimate lies between the smallest and the largest
    non-zero sample. *)
Theorem priority_fee_within_samples reward lo hi :
  Forall (λ fee, fee ≠ []) reward ->
  Forall (λ x, 0 <= x) (samples reward) ->
  sum (non_zero (samples reward)) < 2 ^ 52 ->
  non_zero (samples reward) ≠ [] ->
  Forall (λ x, lo <= x <= hi) (non_zero (samples reward)) ->
  exists fee, priority_fee_of reward = Ok fee /\ lo <= fee <= hi.
Proof.
  intros Hblocks Hpos Hbound Hne Hrange.
  rewrite priority_fee_of_samples by done.
  pose proof (sum_bounds _ _ _ Hrange) as Hsum.
  pose proof (non_zero_positive _ Hpos) as Hone.
  generalize dependent (non_zero (samples reward)). intros fees Hbound Hne Hrange Hsum Hone.
  set (n := Z.of_nat (length fees)) in *.
  assert (Hn : 1 <= n) by (unfold n; destruct fees; [done|cbn [length]; lia]).
  assert (Hns : n <= sum fees).
  { clear -Hone. unfold n. induction Hone as [|x l Hx _ IH]; [done|].
    rewrite sum_cons. cbn [length]. cbn beta zeta in Hx, IH. lia. }
  rewrite Z.max_l by lia.
  destruct (mean_rounding (sum fees) n Hn Hns Hbound) as (R & -> & Hnear).
  exists R. split; [done|]. nia.
Qed.

(** X10: the estimator fails with [IndexError] exactly when a block of
    the window has no sample, and otherwise only when the quotient
    overflows a float: it never divides by zero. *)
Theorem priority_fee_failures reward :
  ([] ∈ reward <->
   priority_fee_of reward = Raise (PExc IndexError [PStr "list index out of range"]))
  /\ (forall error, priority_fee_of reward = Raise error ->
        error = PExc IndexError [PStr "list index out of range"]
        \/ error = overflow "integer division result too large for a float"
        \/ error = overflow "cannot convert float infinity to integer").
Proof.
  assert (Hok : [] ∉ reward -> forall error, priority_fee_of reward = Raise error ->
            error = overflow "integer division result too large for a float"
            \/ error = overflow "cannot convert float infinity to integer").
  { intros Hno error. rewrite priority_fee_of_samples by by apply no_empty_block.
    unfold true_div.
    destruct (Z.eqb_spec (Z.max (Z.of_nat (length (non_zero (samples reward)))) 1) 0);
      [lia|].
    destruct (Z.ltb_spec (Z.max (Z.of_nat (length (non_zero (samples reward)))) 1) 0);
      [lia|].
    destruct (float_round _ _); cbn; [done|]. intros [= <-]. by left. }
  split.
  - split.
    + intros Hin. unfold priority_fee_of. by rewrite empty_block_raises.
    + intros Hraise. destruct (decide ([] ∈ reward)) as [|Hno]; [done|].
      by destruct (Hok Hno _ Hraise).
  - intros error Hraise. destruct (decide ([] ∈ reward)) as [Hin|Hno].
    + left. unfold priority_fee_of in Hraise.
      rewrite empty_block_raises in Hraise by done. by injection Hraise as <-.
    + right. by apply Hok.
Qed.

(** ** More on building the transaction *)

(** X11: a built transaction carries the client's address, the nonce the
    node reports, the value asked for and the chain id of the network,
    and besides its pricing fields nothing else: no gas limit, no
    recipient. *)
Theorem built_transaction_fields self eth value tx_params :
  prepare_transaction self eth value = Ok tx_params ->
  exists nonce,
    get_transaction_count eth (address self) = Ok nonce
    /\ tx_params !! "from" = Some (PStr (address self))
    /\ tx_params !! "nonce" = Some (PInt nonce)
    /\ tx_params !! "value" = Some (PInt value)
    /\ tx_params !! "chainId" = Some (PInt (Network.chain_id (network self)))
    /\ dom tx_params
       = {[ "from"; "nonce"; "value"; "chainId" ]}
         ∪ (if Network.eip1559_support (network self)
            then {[ "maxPriorityFeePerGas"; "maxFeePerGas"; "type" ]}
            else ({[ "gasPrice" ]} : gset string)).
Proof.
  unfold prepare_transaction.
  destruct (get_transaction_count eth (address self)) as [nonce|]; [|done]. cbn.
  destruct (Network.eip1559_support (network self)).
  - destruct (gas_price eth) as [base_fee|]; [|done]. cbn.
    destruct (get_priotiry_fee eth) as [priority_fee|]; [|done]. cbn.
    destruct (int_mul_1_5 (base_fee + priority_fee)) as [max_fee|]; [|done]. cbn.
    intros [= <-]. exists nonce. repeat (split; [done|]).
    rewrite !dom_insert_L, dom_singleton_L. set_solver.
  - destruct (gas_price eth) as [price|]; [|done]. cbn.
    destruct (int_mul_1_5 price) as [gas_price'|]; [|done]. cbn.
    intros [= <-]. exists nonce. repeat (split; [done|]).
    rewrite !dom_insert_L, dom_singleton_L. set_solver.
Qed.

(** X12: whatever goes wrong while building is raised as
    [BlockchainException] of the normalized error of the call that
    failed: the nonce, the gas price, the priority fee (with the flag
    only) or the scaling by 1.5. *)
Theorem prepare_transaction_failure self eth value e :
  prepare_transaction self eth value = Raise e ->
  exists error,
    e = BlockchainException (get_normalize_error error)
    /\ (get_transaction_count eth (address self) = Raise error
        \/ gas_price eth = Raise error
        \/ (Network.eip1559_support (network self) = true
            /\ get_priotiry_fee eth = Raise error)
        \/ exists n, int_mul_1_5 n = Raise error).
Proof.
  unfold prepare_transaction.
  destruct (get_transaction_count eth (address self)) as [nonce|error] eqn:Hn.
  2: { intros [= <-]. exists error. split; [done|]. by left. }
  cbn [mbind Result_bind].
  destruct (Network.eip1559_support (network self)).
  - destruct (gas_price eth) as [base_fee|error] eqn:Hp.
    2: { intros [= <-]. exists error. split; [done|]. right. by left. }
    cbn [mbind Result_bind].
    destruct (get_priotiry_fee eth) as [priority_fee|error] eqn:Hf.
    2: { intros [= <-]. exists error. split; [done|]. right. right. by left. }
    cbn [mbind Result_bind].
    destruct (int_mul_1_5 (base_fee + priority_fee)) as [max_fee|error] eqn:Hm; [done|].
    intros [= <-]. exists error. split; [done|]. right. right. right. by eexists.
  - destruct (gas_price eth) as [price|error] eqn:Hp.
    2: { intros [= <-]. exists error. split; [done|]. right. by left. }
    cbn [mbind Result_bind].
    destruct (int_mul_1_5 price) as [gas_price'|error] eqn:Hm; [done|].
    intros [= <-]. exists error. split; [done|]. right. right. right. by eexists.
Qed.

(** X13: with a non-negative base fee and priority fee (three times
    their sum below [2^53]) a built priority-fee transaction offers at
    least base fee plus tip: [maxFeePerGas] is not below
    [maxPriorityFeePerGas]. *)
Theorem max_fee_covers_priority_fee self eth value tx_params base_fee priority_fee :
  prepare_transaction self eth value = Ok tx_params ->
  Network.eip1559_support (network self) = true ->
  gas_price eth = Ok base_fee ->
  get_priotiry_fee eth = Ok priority_fee ->
  0 <= base_fee -> 0 <= priority_fee -> 3 * (base_fee + priority_fee) < 2 ^ 53 ->
  exists max_fee,
    tx_params !! "maxFeePerGas" = Some (PInt max_fee)
    /\ tx_params !! "maxPriorityFeePerGas" = Some (PInt priority_fee)
    /\ base_fee + priority_fee <= max_fee
    /\ priority_fee <= max_fee.
Proof.
  intros Hbuild Hflag Hprice Hfee Hb Hp H53. unfold prepare_transaction in Hbuild.
  destruct (get_transaction_count eth (address self)) as [nonce|]; [|done].
  cbn in Hbuild. rewrite Hflag, Hprice in Hbuild. cbn in Hbuild.
  rewrite Hfee in Hbuild. cbn in Hbuild.
  rewrite int_mul_1_5_exact in Hbuild by lia. cbn in Hbuild.
  injection Hbuild as <-. eexists. split; [done|]. split; [done|].
  assert (base_fee + priority_fee <= 3 * (base_fee + priority_fee) / 2)
    by (apply Z.div_le_lower_bound; lia).
  lia.
Qed.

(** ** More on endpoint selection *)

Lemma choice_some {A} r (l : list A) : l ≠ [] -> exists x, choice r l = Ok x /\ x ∈ l.
Proof.
  intros Hne. unfold choice.
  assert (Hlt : (r mod length l < length l)%nat).
  { apply Nat.mod_upper_bound. by destruct l. }
  destruct (lookup_lt_is_Some_2 l _ Hlt) as [x Hx]. rewrite Hx.
  exists x. split; [done|]. by eapply list_elem_of_lookup_2.
Qed.

Lemma choice_nil {A} r :
  choice r (@nil A) = Raise (PExc IndexError [PStr "Cannot choose from an empty sequence"]).
Proof. unfold choice. by rewrite lookup_nil. Qed.

(** What one swap does. *)
Lemma change_rpc_result r self self' log :
  change_rpc r self = Ok (self', log) ->
  (length (Network.rpc (network self)) = 1%nat /\ self' = self)
  \/ (length (Network.rpc (network self)) <> 1%nat
      /\ exists new_rpc,
           new_rpc ∈ Network.rpc (network self) /\ new_rpc <> rpc self
           /\ self' = with_w3 self (AsyncHTTPProvider new_rpc (request_kwargs self))).
Proof.
  unfold change_rpc.
  destruct (Nat.eqb_spec (length (Network.rpc (network self))) 1) as [Hlen|Hlen]; cbn [negb].
  - cbn. intros [= <- _]. by left.
  - destruct (choice r _) as [new_rpc|] eqn:E; [|done]. cbn. intros [= <- _].
    right. split; [done|]. exists new_rpc.
    apply choice_elem_of, list_elem_of_filter in E. by destruct E.
Qed.

Lemma change_rpcs_away draws : forall self self',
  length (Network.rpc (network self)) <> 1%nat ->
  draws ≠ [] ->
  change_rpcs draws self = Ok self' ->
  endpoint_uri (w3 self') <> rpc self
  /\ endpoint_uri (w3 self') ∈ Network.rpc (network self)
  /\ kwargs (w3 self') = request_kwargs self
  /\ rpc self' = rpc self /\ network self' = network self
  /\ request_kwargs self' = request_kwargs self.
Proof.
  induction draws as [|r rest IH]; intros self self' Hlen Hne; [done|].
  cbn [change_rpcs]. destruct (change_rpc r self) as [[self1 log]|] eqn:Hswap; [|done].
  cbn. destruct (change_rpc_result _ _ _ _ Hswap) as [[? _]|(_ & new_rpc & Hin & Hnew & ->)];
    [done|].
  destruct rest as [|r' rest'].
  - cbn. intros [= <-]. by cbn.
  - intros Hrest. by apply IH in Hrest.
Qed.

(** X14: once constructed on a network with several endpoints the client
    never reconnects to the endpoint it started on, however often it
    swaps: every swap excludes the endpoint chosen at construction.  The
    connection options are carried over unchanged. *)
Theorem swaps_never_return r address_of_key net private_key name proxy draws
    self self' :
  init r address_of_key net private_key name proxy = Ok self ->
  length (Network.rpc net) <> 1%nat ->
  draws ≠ [] ->
  change_rpcs draws self = Ok self' ->
  endpoint_uri (w3 self') <> endpoint_uri (w3 self)
  /\ endpoint_uri (w3 self') ∈ Network.rpc net
  /\ kwargs (w3 self') = kwargs (w3 self).
Proof.
  intros Hinit Hlen Hne Hswaps.
  assert (Hself : network self = net /\ endpoint_uri (w3 self) = rpc self
                  /\ kwargs (w3 self) = request_kwargs self).
  { unfold init in Hinit. destruct (choice r _); [|done]. cbn in Hinit.
    destruct (address_of_key private_key); [|done]. cbn in Hinit.
    by injection Hinit as <-. }
  destruct Hself as (Hnet & Hactive & Hkw).
  destruct (change_rpcs_away draws self self') as (H1 & H2 & H3 & _); [by rewrite Hnet|done|done|].
  rewrite Hactive, Hkw. by rewrite Hnet in H2.
Qed.

(** X15: a swap raises, with [IndexError], exactly when the endpoint
    list does not have length one and holds no entry other than the
    endpoint chosen at construction: an empty list, or copies of that
    endpoint. *)
Theorem change_rpc_raises_iff r self :
  (exists error, change_rpc r self = Raise error)
  <-> length (Network.rpc (network self)) <> 1%nat
      /\ Forall (λ rpc', rpc' = rpc self) (Network.rpc (network self)).
Proof.
  unfold change_rpc.
  destruct (Nat.eqb_spec (length (Network.rpc (network self))) 1) as [Hlen|Hlen]; cbn [negb].
  - split; [by intros [? ?]|by intros [? _]].
  - destruct (filter _ _) as [|x l] eqn:Hfilter.
    + rewrite choice_nil. cbn. split; [intros _|by eexists]. split; [done|].
      apply Forall_forall. intros rpc' Hin.
      destruct (decide (rpc' = rpc self)) as [|Hne]; [done|].
      assert (rpc' ∈ filter (λ rpc', rpc' ≠ rpc self) (Network.rpc (network self)))
        by (by apply list_elem_of_filter).
      rewrite Hfilter in *. by apply elem_of_nil in H.
    + destruct (choice_some r (x :: l)) as (y & -> & _); [done|]. cbn.
      split; [by intros [? ?]|]. intros [_ Hall].
      assert (Hx : x ∈ filter (λ rpc', rpc' ≠ rpc self) (Network.rpc (network self)))
        by (rewrite Hfilter; apply list_elem_of_here).
      apply list_elem_of_filter in Hx as [Hne Hin].
      by rewrite Forall_forall in Hall; specialize (Hall _ Hin).
Qed.

(** X16: construction fails with [IndexError] on a network without
    endpoints, and otherwise with the error of the account derivation
    when the private key is not one.  When neither fails the client is
    connected to an endpoint of the network with TLS verification off,
    and through the proxy when one is given. *)
Theorem init_outcome r address_of_key network private_key name proxy :
  (Network.rpc network = [] ->
   init r address_of_key network private_key name proxy
   = Raise (PExc IndexError [PStr "Cannot choose from an empty sequence"]))
  /\ (forall error,
        Network.rpc network ≠ [] ->
        address_of_key private_key = Raise error ->
        init r address_of_key network private_key name proxy = Raise error)
  /\ (forall account,
        Network.rpc network ≠ [] ->
        address_of_key private_key = Ok account ->
        exists self,
          init r address_of_key network private_key name proxy = Ok self
          /\ rpc self ∈ Network.rpc network
          /\ address self = account
          /\ w3 self = AsyncHTTPProvider (rpc self) (request_kwargs self)
          /\ request_kwargs self !! "verify_ssl" = Some (PBool false)
          /\ request_kwargs self !! "proxy"
             = match proxy with
               | Some p => if bool_decide (p = "") then None else Some (PStr p)
               | None => None
               end).
Proof.
  split; [|split].
  - intros Hnil. unfold init. by rewrite Hnil, choice_nil.
  - intros error Hne Hkey. destruct (choice_some r _ Hne) as (x & Hx & Hin).
    unfold init. rewrite Hx. cbn. by rewrite Hkey.
  - intros account Hne Hkey. destruct (choice_some r _ Hne) as (x & Hx & Hin).
    unfold init. rewrite Hx. cbn. rewrite Hkey. cbn. eexists. split; [done|]. cbn.
    split; [done|]. split; [done|]. split; [done|].
    destruct proxy as [p|]; [|done]. by destruct (bool_decide (p = "")).
Qed.

(** ** Read-only queries *)

(** X17: the native balance is reported as [None] when it is zero; the
    token argument plays no part. *)
Theorem native_balance_zero_is_None self ledger token balance :
  get_balance ledger (address self) = Ok balance ->
  (balance = 0 -> get_token_balance self ledger token true = Ok None)
  /\ (balance <> 0 -> get_token_balance self ledger token true = Ok (Some balance)).
Proof.
  intros Hbal. unfold get_token_balance. rewrite Hbal. cbn. unfold or_None.
  split; intros H; by destruct (Z.eqb_spec balance 0).
Qed.

(** X18: the token queries await the contract object that [get_contract]
    returns, which cannot be awaited: [get_decimals], and
    [get_token_balance] without [check_native], never return a value;
    for a known token with a valid address they raise [TypeError]. *)
Theorem token_queries_never_return self ledger token :
  (forall decimals, get_decimals ledger token <> Ok decimals)
  /\ (forall balance, get_token_balance self ledger token false <> Ok balance)
  /\ (forall name contract_address checked,
        token = Some name ->
        NETWORK_TOKEN_CONTRACTS ledger !! name = Some contract_address ->
        to_checksum_address ledger contract_address = Ok checked ->
        get_decimals ledger token
        = Raise (PExc (OtherError "TypeError")
                   [PStr "object AsyncContract can't be used in 'await' expression"])
        /\ get_token_balance self ledger token false
           = Raise (PExc (OtherError "TypeError")
                      [PStr "object AsyncContract can't be used in 'await' expression"])).
Proof.
  unfold get_decimals, get_token_balance, get_contract.
  split; [|split].
  - intros decimals. destruct (subscript _ token) as [a|]; [|done]. cbn.
    by destruct (to_checksum_address ledger a).
  - intros balance. destruct (subscript _ token) as [a|]; [|done]. cbn.
    by destruct (to_checksum_address ledger a).
  - intros name a checked -> Hknown Hvalid. cbn. rewrite Hknown. cbn.
    by rewrite Hvalid.
Qed.

(** ** The properties at work *)

(** A hash returned after two misses. *)
Lemma returned_value_is_backed_witness :
  exists transaction',
    fill_gas (node 100 [] (found_after 2)) transfer false = Ok transaction'
    /\ ((exists error,
           broadcast (client_of two_rpc_network) (node 100 [] (found_after 2)) transaction'
           = Raise error
           /\ get_normalize_error error = PStr "already known" /\ TxHash "0xabc" = PyTrue)
        \/ (exists tx_hash i receipts,
              broadcast (client_of two_rpc_network) (node 100 [] (found_after 2)) transaction'
              = Ok tx_hash
              /\ (i < 5)%nat
              /\ get_transaction_receipt (node 100 [] (found_after 2)) i tx_hash = Ok receipts
              /\ if py_eq_int (dict_get receipts "status" PNone) 1
                 then TxHash "0xabc" = (if true then TxHash tx_hash else PyTrue)
                 else is_None (dict_get receipts "status" PNone) = false
                      /\ exists message, TxHash "0xabc" = SoftwareException message)).
Proof.
  apply (returned_value_is_backed 5 (client_of two_rpc_network)
           (node 100 [] (found_after 2)) transfer true false 10 default_timeout).
  vm_compute; reflexivity.
Defined.

(** The receipt never appears: the call gives up at the 122nd lookup. *)
Lemma timeout_needs_patience_witness :
  BlockchainException
    (PExc TimeExhausted [PStr "Транзакция отсутствует в цепочке после 1200 секунд"])
  = BlockchainException
      (PExc TimeExhausted [PStr "Транзакция отсутствует в цепочке после 1200 секунд"])
  /\ exists i, (i < 122)%nat
               /\ missing (node 100 [] (λ _, not_found)) "0xabc" i
               /\ 1200 < Z.of_nat (raised (node 100 [] (λ _, not_found)) "0xabc" i) * 10.
Proof.
  apply (timeout_needs_patience 122 (client_of two_rpc_network)
           (node 100 [] (λ _, not_found)) transfer false false 10 default_timeout
           transfer_with_gas "0xabc").
  - vm_compute; reflexivity.
  - vm_compute; reflexivity.
  - vm_compute; reflexivity.
Defined.

Lemma pending_receipt_never_ends_witness :
  send_transaction 50 (client_of two_rpc_network) (node 100 [] still_pending)
    transfer false false 10 default_timeout = None
  /\ reaches (client_of two_rpc_network) (node 100 [] still_pending) "0xabc" false
       10 1200 50 0.
Proof.
  apply (pending_receipt_never_ends 50 (client_of two_rpc_network)
           (node 100 [] still_pending) transfer false false 10 default_timeout
           transfer_with_gas "0xabc").
  - vm_compute; reflexivity.
  - vm_compute; reflexivity.
  - intros i. eexists. split; reflexivity.
Defined.

Lemma nonpositive_latency_never_times_out_witness :
  send_transaction 200 (client_of two_rpc_network) (node 100 [] (λ _, not_found))
    transfer false false 0 default_timeout = None.
Proof.
  apply (nonpositive_latency_never_times_out 200 (client_of two_rpc_network)
           (node 100 [] (λ _, not_found)) transfer false false 0 default_timeout
           transfer_with_gas "0xabc").
  - vm_compute; reflexivity.
  - vm_compute; reflexivity.
  - lia.
  - intros i. eexists. reflexivity.
Defined.

Lemma estimation_failure_is_raised_witness :
  send_transaction 1 (client_of two_rpc_network) (unestimable_node already_known_error)
    transfer false false 10 default_timeout
  = Some (Raise (BlockchainException (get_normalize_error already_known_error))).
Proof.
  apply (estimation_failure_is_raised 1 (client_of two_rpc_network)
           (unestimable_node already_known_error) transfer false 10 default_timeout).
  reflexivity.
Defined.

Lemma gas_limit_has_headroom_witness :
  exists transaction',
    fill_gas (node 100 [] (λ _, not_found)) transfer false = Ok transaction'
    /\ transaction' !! "gas" = Some (PInt (3 * 21000 / 2))
    /\ 21000 <= 3 * 21000 / 2
    /\ forall key, key <> "gas" -> transaction' !! key = transfer !! key.
Proof.
  apply (gas_limit_has_headroom (node 100 [] (λ _, not_found)) transfer 21000).
  - reflexivity.
  - lia.
  - vm_compute; reflexivity.
Defined.

Lemma already_known_needs_payload_witness :
  send_transaction 1 (client_of two_rpc_network) (rejecting_node already_known_error)
    transfer false false 10 default_timeout = Some (Ok PyTrue)
  <-> exists d rest,
        [PDict (<[ "message" := PStr "already known" ]> {[ "code" := PInt (-32000) ]})]
        = PDict d :: rest
        /\ d !! "message" = Some (PStr "already known").
Proof.
  apply (already_known_needs_payload 1 (client_of two_rpc_network)
           (rejecting_node already_known_error) transfer false false 10 default_timeout
           transfer_with_gas (OtherError "Web3RPCError")
           [PDict (<[ "message" := PStr "already known" ]> {[ "code" := PInt (-32000) ]})]).
  - vm_compute; reflexivity.
  - reflexivity.
Defined.

(** A zero-reward block more, further percentiles and another order. *)
Lemma priority_fee_depends_on_non_zero_samples_witness :
  priority_fee_of [[5]; [0]; [3]; [0]] = priority_fee_of [[3; 9]; [5; 7]; [0; 1]].
Proof.
  apply (priority_fee_depends_on_non_zero_samples
           [[5]; [0]; [3]; [0]] [[3; 9]; [5; 7]; [0; 1]]).
  - repeat (apply List.Forall_cons; [discriminate|]). apply List.Forall_nil.
  - repeat (apply List.Forall_cons; [discriminate|]). apply List.Forall_nil.
  - vm_compute. apply perm_swap.
Defined.

Lemma priority_fee_within_samples_witness :
  exists fee, priority_fee_of [[5]; [0]; [3]; [0]] = Ok fee /\ 3 <= fee <= 5.
Proof.
  apply (priority_fee_within_samples [[5]; [0]; [3]; [0]] 3 5).
  - repeat (apply List.Forall_cons; [discriminate|]). apply List.Forall_nil.
  - cbn. repeat (apply List.Forall_cons; [lia|]). apply List.Forall_nil.
  - vm_compute; reflexivity.
  - vm_compute; discriminate.
  - change (Forall (λ x, 3 <= x <= 5) [5; 3]).
    repeat (apply List.Forall_cons; [lia|]). apply List.Forall_nil.
Defined.

Lemma priority_fee_failures_witness :
  priority_fee_of [[5]; []; [3]] = Raise (PExc IndexError [PStr "list index out of range"]).
Proof.
  apply (proj1 (proj1 (priority_fee_failures [[5]; []; [3]]))).
  apply list_elem_of_further, list_elem_of_here.
Defined.

Lemma built_transaction_fields_witness :
  exists nonce,
    get_transaction_count (node 100 [] (λ _, not_found)) "0xA11CE" = Ok nonce
    /\ legacy_transaction !! "from" = Some (PStr "0xA11CE")
    /\ legacy_transaction !! "nonce" = Some (PInt nonce)
    /\ legacy_transaction !! "value" = Some (PInt 0)
    /\ legacy_transaction !! "chainId" = Some (PInt 56)
    /\ dom legacy_transaction
       = {[ "from"; "nonce"; "value"; "chainId" ]} ∪ ({[ "gasPrice" ]} : gset string).
Proof.
  apply (built_transaction_fields (client_of one_rpc_network)
           (node 100 [] (λ _, not_found)) 0 legacy_transaction).
  vm_compute; reflexivity.
Defined.

(** A block without a sample in the window. *)
Lemma prepare_transaction_failure_witness :
  exists error,
    BlockchainException (PExc IndexError [PStr "list index out of range"])
    = BlockchainException (get_normalize_error error)
    /\ (get_transaction_count (node 100 [[]] (λ _, not_found)) "0xA11CE" = Raise error
        \/ gas_price (node 100 [[]] (λ _, not_found)) = Raise error
        \/ (true = true /\ get_priotiry_fee (node 100 [[]] (λ _, not_found)) = Raise error)
        \/ exists n, int_mul_1_5 n = Raise error).
Proof.
  apply (prepare_transaction_failure (client_of two_rpc_network)
           (node 100 [[]] (λ _, not_found)) 0).
  reflexivity.
Defined.

Lemma max_fee_covers_priority_fee_witness :
  exists max_fee,
    priced_transaction !! "maxFeePerGas" = Some (PInt max_fee)
    /\ priced_transaction !! "maxPriorityFeePerGas" = Some (PInt 4)
    /\ 100 + 4 <= max_fee
    /\ 4 <= max_fee.
Proof.
  apply (max_fee_covers_priority_fee (client_of two_rpc_network)
           (node 100 [[5]; [0]; [3]; [0]] (λ _, not_found)) 0 priced_transaction 100 4).
  - vm_compute; reflexivity.
  - reflexivity.
  - reflexivity.
  - vm_compute; reflexivity.
  - lia.
  - lia.
  - vm_compute; reflexivity.
Defined.

(** Three swaps on the network with two endpoints. *)
Lemma swaps_never_return_witness :
  endpoint_uri (w3 (with_w3 (client_of two_rpc_network)
                      (AsyncHTTPProvider "https://rpc-b.example"
                         {[ "verify_ssl" := PBool false ]})))
  <> endpoint_uri (w3 (client_of two_rpc_network))
  /\ endpoint_uri (w3 (with_w3 (client_of two_rpc_network)
                         (AsyncHTTPProvider "https://rpc-b.example"
                            {[ "verify_ssl" := PBool false ]})))
     ∈ Network.rpc two_rpc_network
  /\ kwargs (w3 (with_w3 (client_of two_rpc_network)
                   (AsyncHTTPProvider "https://rpc-b.example"
                      {[ "verify_ssl" := PBool false ]})))
     = kwargs (w3 (client_of two_rpc_network)).
Proof.
  apply (swaps_never_return 0 test_address_of_key two_rpc_network "key" "acc" None
           [7; 4; 1]%nat).
  - reflexivity.
  - cbn. lia.
  - discriminate.
  - reflexivity.
Defined.

Lemma change_rpc_raises_iff_witness :
  exists error, change_rpc 0 (client_of duplicate_rpc_network) = Raise error.
Proof.
  apply (proj2 (change_rpc_raises_iff 0 (client_of duplicate_rpc_network))).
  split.
  - cbn. lia.
  - repeat (apply List.Forall_cons; [reflexivity|]). apply List.Forall_nil.
Defined.

Lemma init_outcome_witness :
  init 1 account_of_key two_rpc_network "key" "acc" (Some "http://proxy:8080")
  = Raise invalid_key_error
  /\ exists self,
       init 1 account_of_key two_rpc_network valid_private_key "acc"
         (Some "http://proxy:8080") = Ok self
       /\ rpc self ∈ Network.rpc two_rpc_network
       /\ address self = valid_address
       /\ w3 self = AsyncHTTPProvider (rpc self) (request_kwargs self)
       /\ request_kwargs self !! "verify_ssl" = Some (PBool false)
       /\ request_kwargs self !! "proxy" = Some (PStr "http://proxy:8080").
Proof.
  split.
  - apply (proj1 (proj2 (init_outcome 1 account_of_key two_rpc_network "key" "acc"
                           (Some "http://proxy:8080")))).
    + discriminate.
    + reflexivity.
  - apply (proj2 (proj2 (init_outcome 1 account_of_key two_rpc_network
                           valid_private_key "acc" (Some "http://proxy:8080")))).
    + discriminate.
    + reflexivity.
Defined.

Lemma native_balance_zero_is_None_witness :
  get_token_balance (client_of two_rpc_network) (ledger_with 0) (Some "DOGE") true
  = Ok None.
Proof.
  apply (proj1 (native_balance_zero_is_None (client_of two_rpc_network) (ledger_with 0)
                  (Some "DOGE") 0 eq_refl)).
  reflexivity.
Defined.

Lemma token_queries_never_return_witness :
  get_decimals (ledger_with 5) (Some "USDT")
  = Raise (PExc (OtherError "TypeError")
             [PStr "object AsyncContract can't be used in 'await' expression"])
  /\ get_token_balance (client_of two_rpc_network) (ledger_with 5) (Some "USDT") false
     = Raise (PExc (OtherError "TypeError")
                [PStr "object AsyncContract can't be used in 'await' expression"]).
Proof.
  apply (proj2 (proj2 (token_queries_never_return (client_of two_rpc_network)
                         (ledger_with 5) (Some "USDT")))
           "USDT" "0xdac17f958d2ee523a2206206994597c13d831ec7"
           "0xdac17f958d2ee523a2206206994597c13d831ec7").
  - reflexivity.
  - reflexivity.
  - reflexivity.
Defined.

Lemma send_transaction_times_out_witness :
  send_transaction 122 (client_of two_rpc_network) (node 100 [] (λ _, not_found))
    transfer true false 10 default_timeout
  = Some (Raise (BlockchainException
                   (PExc TimeExhausted
                      [PStr "Транзакция отсутствует в цепочке после 1200 секунд"]))).
Proof.
  apply (send_transaction_times_out 122 (client_of two_rpc_network)
           (node 100 [] (λ _, not_found)) transfer true false 10 default_timeout
           transfer_with_gas "0xabc").
  - vm_compute; reflexivity.
  - vm_compute; reflexivity.
  - lia.
  - intros i. eexists. reflexivity.
  - vm_compute. lia.
Defined.
